(** * Batch Excel -> Origin plotter: a shallow embedding of
    [Batch_Excel_Origin_Plotter.py] and the properties of its reshaper,
    its output paths, its automation driver and its batch controller. *)

From Stdlib Require Import String Ascii ZArith Arith Bool Lia.
From Stdlib Require Import Decimal DecimalNat DecimalString.
From Stdlib Require Import List.
Import ListNotations.
Local Open Scope string_scope.

Set Implicit Arguments.

(** ** Python results: a value or a raised exception *)

(** An exception: its class and the argument it was raised with. *)
Inductive exn : Type :=
| KeyError (key : string)
| IndexError (msg : string)
| ValueError (msg : string)
| TypeError (msg : string)
| ZeroDivisionError (msg : string)
| OtherError (msg : string).

Inductive result (A : Type) : Type :=
| Ok (a : A)
| Raise (e : exn).
Arguments Ok {A} a.
Arguments Raise {A} e.

Definition rbind {A B} (r : result A) (k : A -> result B) : result B :=
  match r with
  | Ok a => k a
  | Raise e => Raise e
  end.

Notation "'let?' x ':=' r 'in' k" := (rbind r (fun x => k))
  (at level 10, x name, r at level 100, k at level 200).

(** [for x in xs: acc = body(x, acc)], stopping at the first exception. *)
Fixpoint rfold {A S} (body : A -> S -> result S) (xs : list A) (acc : S)
  : result S :=
  match xs with
  | [] => Ok acc
  | x :: xs' => let? acc' := body x acc in rfold body xs' acc'
  end.

Fixpoint rmap {A B} (f : A -> result B) (xs : list A) : result (list B) :=
  match xs with
  | [] => Ok []
  | x :: xs' => let? y := f x in let? ys := rmap f xs' in Ok (y :: ys)
  end.

(** ** Text helpers: [str(n)] and the f-strings of the program *)

Definition str (n : nat) : string := NilEmpty.string_of_uint (Nat.to_uint n).

(** [f"Cycle{i+1}_SpeCap"], [f"Cycle{i+1}_Voltage"] and [f"Cycle {i+1}"]
    for the 0-based loop index [i]. *)
Definition spe_name (i : nat) : string := "Cycle" ++ str (i + 1) ++ "_SpeCap".
Definition vol_name (i : nat) : string := "Cycle" ++ str (i + 1) ++ "_Voltage".
Definition plot_name (i : nat) : string := "Cycle " ++ str (i + 1).

(** ** A Python dict as an insertion-ordered association list *)

Fixpoint dict_set {V} (k : string) (v : V) (d : list (string * V))
  : list (string * V) :=
  match d with
  | [] => [(k, v)]
  | (k', v') :: d' =>
      if String.eqb k' k then (k', v) :: d' else (k', v') :: dict_set k v d'
  end.

(** ** Frames *)

Section Frames.

(** The numeric type of the table library (integers and floats there), its
    parser of text cells and the number a boolean counts as (1 or 0) are
    left abstract. *)
Variable num : Type.
Variable parse_text : string -> option num.
Variable num_of_bool : bool -> num.

(** A cell of the parsed sheet: a number, a text, nothing, a boolean, or
    any other object (a date, a time). *)
Inductive cell : Type :=
| CNum (x : num)
| CText (s : string)
| CEmpty
| CBool (b : bool)
| COther.

(** A converted value: a number, the missing-value marker (NaN), or a
    boolean. *)
Inductive value : Type :=
| VNum (x : num)
| VNaN
| VBool (b : bool).

(** A frame: row labels and positional columns of equal length. *)
Record DataFrame : Type := mkFrame {
  index : list nat;
  columns : list (list cell)
}.

Definition wf_frame (df : DataFrame) : bool :=
  forallb (fun c => Nat.eqb (length c) (length (index df))) (columns df).

(** [keep mask col]: the entries of [col] at the positions where [mask]
    holds. *)
Fixpoint keep {A} (mask : list bool) (col : list A) : list A :=
  match mask, col with
  | b :: mask', x :: col' => if b then x :: keep mask' col' else keep mask' col'
  | _, _ => []
  end.

(** [df.drop(index=lbl)]: removes the rows labelled [lbl]; raises
    [KeyError] when no row has that label. *)
Definition drop_index (lbl : nat) (df : DataFrame) : result DataFrame :=
  if existsb (Nat.eqb lbl) (index df) then
    let mask := map (fun l => negb (Nat.eqb l lbl)) (index df) in
    Ok {| index := keep mask (index df);
          columns := map (keep mask) (columns df) |}
  else Raise (KeyError ("[" ++ str lbl ++ "] not found in axis")).

(** [df.reset_index(drop=True)]: relabels the rows 0, 1, 2, ... *)
Definition reset_index (df : DataFrame) : DataFrame :=
  {| index := seq 0 (length (index df)); columns := columns df |}.

(** [df.iloc[:, j]]: the column at position [j]; [IndexError] out of range. *)
Definition iloc_col (df : DataFrame) (j : nat) : result (list cell) :=
  match nth_error (columns df) j with
  | Some c => Ok c
  | None => Raise (IndexError "single positional indexer is out-of-bounds")
  end.

(** [pd.to_numeric(col, errors=...)] *)
Inductive errors_mode : Type := ErrRaise | ErrCoerce.

Definition dquote : string := String (ascii_of_nat 34) EmptyString.

(** What the cell at position [i] converts to. An empty text counts as
    missing; a text that does not parse, or an object that is no number,
    raises or is coerced to missing, by the mode. *)
Definition convert_cell (mode : errors_mode) (i : nat) (c : cell)
  : result value :=
  match c with
  | CNum x => Ok (VNum x)
  | CBool b => Ok (VBool b)
  | CEmpty => Ok VNaN
  | CText s =>
      if String.eqb s EmptyString then Ok VNaN
      else
        match parse_text s with
        | Some x => Ok (VNum x)
        | None =>
            match mode with
            | ErrRaise =>
                Raise (ValueError ("Unable to parse string " ++ dquote ++ s
                                   ++ dquote ++ " at position " ++ str i))
            | ErrCoerce => Ok VNaN
            end
        end
  | COther =>
      match mode with
      | ErrRaise =>
          Raise (TypeError ("Invalid object type at position " ++ str i))
      | ErrCoerce => Ok VNaN
      end
  end.

Fixpoint convert_cells (mode : errors_mode) (i : nat) (col : list cell)
  : result (list value) :=
  match col with
  | [] => Ok []
  | c :: col' =>
      let? v := convert_cell mode i c in
      let? vs := convert_cells mode (S i) col' in
      Ok (v :: vs)
  end.

Definition is_bool_value (v : value) : bool :=
  match v with
  | VBool _ => true
  | _ => false
  end.

(** The kind of the result: booleans when nothing but booleans was seen,
    numbers otherwise, the booleans then counted as 1 and 0. *)
Definition settle (vs : list value) : list value :=
  if forallb is_bool_value vs then vs
  else map (fun v => match v with
                     | VBool b => VNum (num_of_bool b)
                     | _ => v
                     end) vs.

Definition to_numeric (mode : errors_mode) (col : list cell)
  : result (list value) :=
  let? vs := convert_cells mode 0 col in Ok (settle vs).

(** The wide table: [pd.DataFrame(out)] for a dict [out] of converted
    columns that share the rows [idx]; no rows when [out] is empty. *)
Record WideTable : Type := mkWide {
  windex : list nat;
  wcols : list (string * list value)
}.

Definition DataFrame_of_dict (idx : list nat) (out : list (string * list value))
  : WideTable :=
  {| windex := match out with [] => [] | _ => idx end; wcols := out |}.

(** *** The reshaper of [process_file] *)

(** [excel.parse(...).drop(index=0).reset_index(drop=True)] on the parsed
    sheet. *)
Definition clean (parsed : DataFrame) : result DataFrame :=
  let? d := drop_index 0 parsed in Ok (reset_index d).

(** One iteration of the loop of step 2. *)
Definition wide_step (raw : DataFrame) (i : nat)
           (out : list (string * list value))
  : result (list (string * list value)) :=
  let? spe_col := iloc_col raw (i * 3 + 1) in
  let? spe := to_numeric ErrCoerce spe_col in
  let? vol_col := iloc_col raw (i * 3 + 2) in
  let? vol := to_numeric ErrCoerce vol_col in
  Ok (dict_set (vol_name i) vol (dict_set (spe_name i) spe out)).

Definition cycles_of (raw : DataFrame) : nat := length (columns raw) / 3.

Definition build_wide (raw : DataFrame) : result WideTable :=
  let cycles := cycles_of raw in
  let? out := rfold (wide_step raw) (seq 0 cycles) [] in
  Ok (DataFrame_of_dict (index raw) out).

Definition reshape (parsed : DataFrame) : result WideTable :=
  let? raw := clean parsed in build_wide raw.

(** *** [to_csv]: the records of the written file, a header and one record
    per row; a missing value is written as the empty field. *)
Variable repr : num -> string.

Definition field (v : value) : string :=
  match v with
  | VNum x => repr x
  | VNaN => EmptyString
  | VBool b => if b then "True" else "False"
  end.

Definition csv_record (index_col : bool) (w : WideTable) (r : nat * nat)
  : list string :=
  let fields := map (fun c => field (nth (fst r) (snd c) VNaN)) (wcols w) in
  if index_col then str (snd r) :: fields else fields.

Definition to_csv (index_col : bool) (w : WideTable) : list (list string) :=
  let header := map fst (wcols w) in
  (if index_col then EmptyString :: header else header)
    :: map (csv_record index_col w)
           (combine (seq 0 (length (windex w))) (windex w)).

End Frames.

Arguments CText {num} s.
Arguments CEmpty {num}.
Arguments CBool {num} b.
Arguments COther {num}.
Arguments VNaN {num}.
Arguments VBool {num} b.

(** ** Paths: [os.path.splitext] as the program's platform has it
    ([ntpath]: separators [\] and [/], extension separator [.]) *)

Definition sep : ascii := "\"%char.
Definition altsep : ascii := "/"%char.
Definition extsep : ascii := "."%char.

Local Open Scope Z_scope.

(** [s.rfind(c)] for a one-character [c]: the last position of [c], or -1. *)
Fixpoint rfind (c : ascii) (s : string) : Z :=
  match s with
  | EmptyString => -1
  | String a r =>
      let j := rfind c r in
      if 0 <=? j then j + 1 else if Ascii.eqb a c then 0 else -1
  end.

(** The slices [s[:n]] and [s[n:]]. *)
Fixpoint take (n : nat) (s : string) : string :=
  match n, s with
  | S n', String a r => String a (take n' r)
  | _, _ => EmptyString
  end.

Fixpoint drop (n : nat) (s : string) : string :=
  match n, s with
  | S n', String _ r => drop n' r
  | _, _ => s
  end.

Definition sepIndex (p : string) : Z := Z.max (rfind sep p) (rfind altsep p).

(** The [while filenameIndex < dotIndex] loop of [_splitext], which skips
    the leading dots of the file name; [n] counts the positions left. *)
Fixpoint skip_leading_dots (p : string) (filenameIndex : nat) (n : nat)
         (dotIndex : nat) : string * string :=
  match n with
  | O => (p, EmptyString)
  | S n' =>
      match String.get filenameIndex p with
      | Some a =>
          if Ascii.eqb a extsep
          then skip_leading_dots p (S filenameIndex) n' dotIndex
          else (take dotIndex p, drop dotIndex p)
      | None => (take dotIndex p, drop dotIndex p)
      end
  end.

Definition splitext (p : string) : string * string :=
  let dotIndex := rfind extsep p in
  if sepIndex p <? dotIndex then
    let filenameIndex := sepIndex p + 1 in
    skip_leading_dots p (Z.to_nat filenameIndex)
                      (Z.to_nat (dotIndex - filenameIndex)) (Z.to_nat dotIndex)
  else (p, EmptyString).

(** The directory part of a path: everything up to and including its last
    separator. *)
Definition dir_part (p : string) : string := take (Z.to_nat (sepIndex p + 1)) p.

(** [s.split(c)] for a one-character separator. *)
Fixpoint split (c : ascii) (s : string) : list string :=
  match s with
  | EmptyString => [EmptyString]
  | String a r =>
      if Ascii.eqb a c then EmptyString :: split c r
      else match split c r with
           | h :: t => String a h :: t
           | [] => [String a EmptyString]
           end
  end.

(** [a // b] on Python integers: the quotient rounded down, as [Z]'s
    division has it; a zero divisor raises. *)
Definition py_floordiv (a b : Z) : result Z :=
  if b =? 0 then Raise (ZeroDivisionError "integer division or modulo by zero")
  else Ok (a / b).

(** ** The world the program acts on *)

(** Calls into the plotting application's automation interface. *)
Inductive call : Type :=
| OpNew
| OpSetShow (b : bool)
| Dispatch (progid : string)
| SetVisible (b : bool)
| Execute (cmd : string)
| NewSheet
| FromFile (path : string) (keep_DC : bool)
| ColsAxis (role : string) (c : nat)
| NewGraph (template : string)
| Layer (i : nat)
| AddPlot (coly colx : nat)
| SetPlotName (name : string)
| Rescale
| LtExec (cmd : string)
| NewNotes
| NotesAppend (text : string)
| NotesView (v : nat)
| Save (path : string)
| OpExit.

Inductive dialog : Type :=
| ShowError (title message : string)
| ShowInfo (title message : string).

Record World : Type := mkWorld {
  progress_value : Z;                          (* progress['value'] *)
  origin_log : list call;                      (* calls received by the target *)
  disk : list (string * list (list string));   (* CSV files written *)
  dialogs : list dialog;                       (* message boxes shown *)
  threads : list (list string * string)        (* workers started: files, template *)
}.

(** State and exceptions: a computation returns or raises, and leaves a
    world either way. *)
Definition M (A : Type) : Type := World -> result A * World.

Definition ret {A} (a : A) : M A := fun w => (Ok a, w).

Definition bind {A B} (c : M A) (k : A -> M B) : M B :=
  fun w => match c w with
           | (Ok a, w') => k a w'
           | (Raise e, w') => (Raise e, w')
           end.

Notation "x <- c1 ;; c2" := (bind c1 (fun x => c2))
  (at level 61, c1 at next level, right associativity).
Notation "c1 ;; c2" := (bind c1 (fun _ => c2))
  (at level 61, right associativity).

Definition lift {A} (r : result A) : M A := fun w => (r, w).

(** [try: c  except: pass] *)
Definition try_pass (c : M unit) : M unit :=
  fun w => match c w with
           | (Ok _, w') => (Ok tt, w')
           | (Raise _, w') => (Ok tt, w')
           end.

(** [try: c  except Exception as e: handler(e)] *)
Definition try_except (c : M unit) (handler : exn -> M unit) : M unit :=
  fun w => match c w with
           | (Ok _, w') => (Ok tt, w')
           | (Raise e, w') => handler e w'
           end.

Fixpoint for_each {A} (xs : list A) (body : A -> M unit) : M unit :=
  match xs with
  | [] => ret tt
  | x :: xs' => body x ;; for_each xs' body
  end.

(** [for i in range(n): body(i)] *)
Definition for_range (n : nat) (body : nat -> M unit) : M unit :=
  for_each (seq 0 n) body.

Definition set_progress (v : Z) : M unit :=
  fun w => (Ok tt, mkWorld v (origin_log w) (disk w) (dialogs w) (threads w)).

Definition write_file (path : string) (content : list (list string)) : M unit :=
  fun w => (Ok tt, mkWorld (progress_value w) (origin_log w)
                           (disk w ++ [(path, content)]) (dialogs w) (threads w)).

Definition show (d : dialog) : M unit :=
  fun w => (Ok tt, mkWorld (progress_value w) (origin_log w) (disk w)
                           (dialogs w ++ [d]) (threads w)).

Definition start_thread (files : list string) (templ : string) : M unit :=
  fun w => (Ok tt, mkWorld (progress_value w) (origin_log w) (disk w)
                           (dialogs w) (threads w ++ [(files, templ)])).

(** A mock automation target: records the call and returns. *)
Definition mock_origin (c : call) : M unit :=
  fun w => (Ok tt, mkWorld (progress_value w) (origin_log w ++ [c]) (disk w)
                           (dialogs w) (threads w)).

(** [update_progress]: [progress['value'] = min(100, progress['value'] + v)]
    (the redraw that follows changes no state). *)
Definition update_progress (v : Z) : M unit :=
  fun w => set_progress (Z.min 100 (progress_value w + v)) w.

(** [str(e)]: the argument of the exception; a [KeyError] shows its key
    quoted. *)
Definition exn_message (e : exn) : string :=
  match e with
  | KeyError key => "'" ++ key ++ "'"
  | IndexError msg => msg
  | ValueError msg => msg
  | TypeError msg => msg
  | ZeroDivisionError msg => msg
  | OtherError msg => msg
  end.

Local Close Scope Z_scope.

(** ** The program *)

Section Program.

Variable num : Type.
Variable parse_text : string -> option num.
Variable num_of_bool : bool -> num.
Variable repr : num -> string.

(** The environment: the record sheet a spreadsheet path parses to (or
    the exception of opening and parsing it), [os.path.exists],
    [os.path.basename], [os.path.abspath], [op.oext], and the automation
    target. *)
Variable read_record_sheet : string -> result (DataFrame num).
Variable path_exists : string -> bool.
Variable basename : string -> string.
Variable abspath : string -> string.
Variable oext : bool.
Variable origin : call -> M unit.

Definition csv_path_of (xlsx_path : string) : string :=
  fst (splitext xlsx_path) ++ "_plotdata.csv".

Definition proj_path_of (xlsx_path : string) : string :=
  abspath (fst (splitext xlsx_path) ++ ".opju").

(** Step 7, one iteration: add the plot of cycle [i], name it, report
    progress. *)
Definition plot_step (cycles : nat) (progress_callback : option (Z -> M unit))
           (i : nat) : M unit :=
  let colx := i * 2 in
  let coly := i * 2 + 1 in
  origin (AddPlot coly colx) ;;
  origin (SetPlotName (plot_name i)) ;;
  match progress_callback with
  | Some callback =>
      v <- lift (py_floordiv 100 (Z.of_nat cycles)) ;;
      callback v
  | None => ret tt
  end.

Definition plot_cycles (cycles : nat) (progress_callback : option (Z -> M unit))
  : M unit :=
  for_range cycles (plot_step cycles progress_callback).

Definition process_file (xlsx_path template_path : string)
           (progress_callback : option (Z -> M unit)) : M unit :=
  (* 1) read and clean the record sheet *)
  parsed <- lift (read_record_sheet xlsx_path) ;;
  raw <- lift (clean parsed) ;;
  (* 2) build the wide CSV *)
  let cycles := cycles_of raw in
  wide <- lift (build_wide parse_text num_of_bool raw) ;;
  let csv_path := csv_path_of xlsx_path in
  write_file csv_path (to_csv repr false wide) ;;
  (* 3) launch and show the application *)
  (if oext then origin OpNew ;; origin (OpSetShow true) else ret tt) ;;
  origin (Dispatch "Origin.ApplicationSI") ;;
  origin (SetVisible true) ;;
  try_pass (origin (Execute "win -r")) ;;
  (* 4) import the CSV into a single worksheet *)
  origin NewSheet ;;
  origin (FromFile csv_path false) ;;
  (* 5) worksheet axes XY, XY, ... *)
  for_range cycles (fun i =>
    origin (ColsAxis "X" (i * 2)) ;;
    origin (ColsAxis "Y" (i * 2 + 1))) ;;
  (* 6) graph from the template *)
  origin (NewGraph template_path) ;;
  origin (Layer 0) ;;
  (* 7) one named plot per cycle *)
  plot_cycles cycles progress_callback ;;
  (* 8) finalize *)
  origin Rescale ;;
  origin (LtExec "win -s T") ;;
  (* 9) notes window *)
  origin NewNotes ;;
  origin (NotesAppend ("Excel input:   " ++ basename xlsx_path)) ;;
  origin (NotesAppend ("Template used: " ++ basename template_path)) ;;
  origin (NotesAppend ("CSV export:    " ++ basename csv_path)) ;;
  origin (NotesView 1) ;;
  (* 10) save the project next to the spreadsheet *)
  origin (Save (proj_path_of xlsx_path)).

(** The loop of [_start_batch] over the listed files: the first one that
    does not exist, if any. *)
Fixpoint first_missing (files : list string) : option string :=
  match files with
  | [] => None
  | f :: files' => if path_exists f then first_missing files' else Some f
  end.

Definition _start_batch (files_str templ : string) : M unit :=
  if String.eqb files_str EmptyString then
    show (ShowError "Error" "Select at least one Excel file.")
  else
    let files := split ";" files_str in
    match first_missing files with
    | Some f => show (ShowError "Error" ("File not found: " ++ f))
    | None =>
        if negb (path_exists templ) then
          show (ShowError "Error" "Select a valid template.")
        else
          set_progress 0 ;;
          start_thread files templ
    end.

Definition _worker_batch (files : list string) (templ : string) : M unit :=
  try_except
    (let total_files := length files in
     for_each files (fun f =>
       set_progress 0 ;;
       process_file f templ (Some update_progress)) ;;
     show (ShowInfo "Done"
             ("Processed " ++ str total_files ++ " files successfully.")))
    (fun e => show (ShowError "Error" (exn_message e))).

(** The global exception hook. *)
Variables ExcType ExcValue Traceback : Type.
Variable sys_excepthook : ExcType -> ExcValue -> Traceback -> M unit.

Definition origin_shutdown_exception_hook
           (exctype : ExcType) (value : ExcValue) (traceback : Traceback)
  : M unit :=
  try_pass (origin OpExit) ;;
  sys_excepthook exctype value traceback.

End Program.

(** ** Specification-side helpers *)

Definition is_bool_cell {num} (c : cell num) : bool :=
  match c with
  | CBool _ => true
  | _ => false
  end.

(** What a cell of a coerced column becomes; [all_bool] tells whether the
    column holds nothing but booleans. *)
Definition coerce_cell {num} (parse_text : string -> option num)
           (num_of_bool : bool -> num) (all_bool : bool) (c : cell num)
  : value num :=
  match c with
  | CNum x => VNum x
  | CText s =>
      if String.eqb s EmptyString then VNaN
      else match parse_text s with
           | Some x => VNum x
           | None => VNaN
           end
  | CBool b => if all_bool then VBool b else VNum (num_of_bool b)
  | CEmpty => VNaN
  | COther => VNaN
  end.

Definition coerce_col {num} (parse_text : string -> option num)
           (num_of_bool : bool -> num) (col : list (cell num))
  : list (value num) :=
  map (coerce_cell parse_text num_of_bool (forallb is_bool_cell col)) col.

(** The two output columns of cycle [i] (0-based), read from the source
    columns [cols]. *)
Definition cycle_pair {num} (parse_text : string -> option num)
           (num_of_bool : bool -> num)
           (cols : list (list (cell num))) (i : nat)
  : list (string * list (value num)) :=
  [ (spe_name i, coerce_col parse_text num_of_bool (nth (i * 3 + 1) cols []));
    (vol_name i, coerce_col parse_text num_of_bool (nth (i * 3 + 2) cols [])) ].

Definition is_digit (a : ascii) : bool :=
  let n := nat_of_ascii a in Nat.leb 48 n && Nat.leb n 57.

Fixpoint all_digits (s : string) : bool :=
  match s with
  | EmptyString => true
  | String a r => is_digit a && all_digits r
  end.

(** Concrete inputs: integer cells, a parser of unsigned decimal texts, and
    small record sheets. *)
Definition example_parse (s : string) : option Z :=
  if String.eqb s EmptyString then None
  else option_map Z.of_uint (NilEmpty.uint_of_string s).

Definition example_num_of_bool (b : bool) : Z := if b then 1%Z else 0%Z.

Definition example_repr (x : Z) : string :=
  NilEmpty.string_of_int (Z.to_int x).

(** Two cycles, a unit row and two data rows. *)
Definition example_sheet : DataFrame Z :=
  {| index := [0; 1; 2];
     columns :=
       [ [CText "mAh"; CNum 10%Z; CNum 20%Z];
         [CText "mAh/g"; CNum 5%Z; CText "9"];
         [CText "V"; CNum 37%Z; CText "n/a"];
         [CText "mAh"; CNum 11%Z; CNum 21%Z];
         [CText "mAh/g"; CEmpty; CNum 8%Z];
         [CText "V"; CText "36"; CNum 35%Z] ] |}.

(** The same sheet with a trailing partial group of one column. *)
Definition example_sheet_partial : DataFrame Z :=
  {| index := index example_sheet;
     columns := (columns example_sheet ++ [[CText "mAh"; CNum 12%Z; CNum 22%Z]])%list |}.

(** One cycle whose SpeCap column holds booleans only, and whose Voltage
    column mixes a number and a boolean. *)
Definition bool_sheet : DataFrame Z :=
  {| index := [0; 1; 2];
     columns :=
       [ [CText "mAh"; CNum 10%Z; CNum 20%Z];
         [CText "mAh/g"; CBool true; CBool false];
         [CText "V"; CNum 37%Z; CBool true] ] |}.

(** A sheet that holds the two header rows only: no row at all once parsed. *)
Definition sheet_no_rows3 : DataFrame Z :=
  {| index := []; columns := [[]; []; []] |}.

(** The world after the target has received the calls [cs] and the bar
    has moved by [bar]. *)
Definition advance (bar : Z -> Z) (cs : list call) (w : World) : World :=
  mkWorld (bar (progress_value w)) (origin_log w ++ cs) (disk w) (dialogs w)
          (threads w).

Definition log_calls (cs : list call) (w : World) : World :=
  advance (fun v => v) cs w.

(** [c] returns [a] from the world [w] and leaves the world [w']. *)
Definition runs {A} (c : M A) (w : World) (a : A) (w' : World) : Prop :=
  c w = (Ok a, w').

(** The calls of steps 5 and 7, by 0-based loop index. *)
Definition axis_calls (cycles : nat) : list call :=
  flat_map (fun i => [ColsAxis "X" (i * 2); ColsAxis "Y" (i * 2 + 1)])
           (seq 0 cycles).

Definition plot_calls (cycles : nat) : list call :=
  flat_map (fun i => [AddPlot (i * 2 + 1) (i * 2); SetPlotName (plot_name i)])
           (seq 0 cycles).

(** The whole call sequence of [process_file] on a target. *)
Definition driver_calls (oext : bool) (basename : string -> string)
           (xlsx_path template_path csv_path proj_path : string) (cycles : nat)
  : list call :=
  ((if oext then [OpNew; OpSetShow true] else [])
   ++ [Dispatch "Origin.ApplicationSI"; SetVisible true; Execute "win -r";
       NewSheet; FromFile csv_path false]
   ++ axis_calls cycles
   ++ [NewGraph template_path; Layer 0]
   ++ plot_calls cycles
   ++ [Rescale; LtExec "win -s T"; NewNotes;
       NotesAppend ("Excel input:   " ++ basename xlsx_path);
       NotesAppend ("Template used: " ++ basename template_path);
       NotesAppend ("CSV export:    " ++ basename csv_path);
       NotesView 1; Save proj_path])%list.

(** The bar after [j] progress reports of a file with [cycles] cycles. *)
Definition bar_after (cycles j : nat) (v : Z) : Z :=
  Nat.iter j (fun v => Z.min 100 (v + 100 / Z.of_nat cycles)%Z) v.

Definition is_add_plot (c : call) : bool :=
  match c with
  | AddPlot _ _ => true
  | _ => false
  end.


(** The two calls of cycle [n], counted from 1. *)
Definition cycle_calls (n : nat) : list call :=
  [AddPlot (2 * (n - 1) + 1) (2 * (n - 1)); SetPlotName ("Cycle " ++ str n)].

(** A concrete environment: one spreadsheet with a record sheet and one
    whose record sheet has no row, a working directory for [abspath], and
    the location a path string denotes. *)
Definition example_read (path : string) : result (DataFrame Z) :=
  if String.eqb path "C:/data/run1.xlsx" then Ok example_sheet
  else if String.eqb path "C:/data/empty.xlsx" then Ok sheet_no_rows3
  else Raise (OtherError "No such file").

Definition example_abspath (path : string) : string :=
  if String.prefix "C:" path then path else "C:\work\" ++ path.

Definition example_basename (path : string) : string :=
  drop (Z.to_nat (sepIndex path + 1)) path.

Definition example_exists (path : string) : bool :=
  String.eqb path "C:/data/run1.xlsx" || String.eqb path "C:/data/cv.otpu".

Definition world0 : World := mkWorld 42 [] [] [] [].

(** The world at the start of a file: the bar reset. *)
Definition world_reset : World := mkWorld 0 [] [] [] [].

(** A target on which every call fails, and a default handler that shows
    the exception. *)
Definition failing_origin (c : call) : M unit :=
  fun w => (Raise (OtherError "application not running"), w).

Definition showing_excepthook (exctype value traceback : string) : M unit :=
  show (ShowError exctype value).

(** ** The pickers of the window *)

(** [sep.join(ps)] *)
Fixpoint join (sep : string) (ps : list string) : string :=
  match ps with
  | [] => EmptyString
  | p :: ps' =>
      match ps' with
      | [] => p
      | _ => p ++ sep ++ join sep ps'
      end
  end.

(** [_browse]: the answer of the file dialog replaces the text of the
    entry, unless the dialog was cancelled (an empty answer). *)
Definition _browse (answer : string) (entry : string) : string :=
  if String.eqb answer EmptyString then entry else answer.

(** [_browse_files]: the chosen paths, joined by semicolons, replace the
    text of the entry, unless nothing was chosen. *)
Definition _browse_files (answer : list string) (entry : string) : string :=
  match answer with
  | [] => entry
  | _ => join ";" answer
  end.

(** The number of occurrences of a character. *)
Fixpoint count_char (c : ascii) (s : string) : nat :=
  match s with
  | EmptyString => 0
  | String a r => (if Ascii.eqb a c then 1 else 0) + count_char c r
  end.

(** ** Targets that fail *)

(** [c] raises [e] from the world [w] and leaves the world [w']. *)
Definition raises {A} (c : M A) (w : World) (e : exn) (w' : World) : Prop :=
  c w = (Raise e, w').

(** A target that raises [e] on the calls [bad] selects, without any
    effect, and records every other call. *)
Definition fail_on (bad : call -> bool) (e : exn) (c : call) : M unit :=
  if bad c then (fun w => (Raise e, w)) else mock_origin c.

Definition is_execute (c : call) : bool :=
  match c with
  | Execute _ => true
  | _ => false
  end.

Definition is_new_graph (c : call) : bool :=
  match c with
  | NewGraph _ => true
  | _ => false
  end.

Definition is_cols_axis (c : call) : bool :=
  match c with
  | ColsAxis _ _ => true
  | _ => false
  end.

Definition is_save (c : call) : bool :=
  match c with
  | Save _ => true
  | _ => false
  end.

(** * Properties *)

(** ** Results and loops *)

Lemma rfold_app {A S} (body : A -> S -> result S) (xs ys : list A) (acc : S) :
  rfold body (xs ++ ys)%list acc = let? acc' := rfold body xs acc in rfold body ys acc'.
Proof.
  revert acc; induction xs as [|x xs IH]; intros acc; simpl; [reflexivity|].
  destruct (body x acc) as [acc'|e]; simpl; [apply IH | reflexivity].
Qed.

Lemma flat_map_ext_in {A B} (f g : A -> list B) (l : list A) :
  (forall a, In a l -> f a = g a) -> flat_map f l = flat_map g l.
Proof.
  induction l as [|a l IH]; intros H; simpl; [reflexivity|].
  rewrite (H a) by now left. f_equal. apply IH. intros; apply H; now right.
Qed.

Lemma In_firstn {A} (n : nat) (l : list A) (x : A) :
  In x (firstn n l) -> In x l.
Proof.
  intros H. rewrite <- (firstn_skipn n l). apply in_or_app; now left.
Qed.

Lemma nth_firstn_lt {A} (n i : nat) (l : list A) (d : A) :
  i < n -> nth i (firstn n l) d = nth i l d.
Proof.
  intros H. rewrite nth_firstn. apply Nat.ltb_lt in H. now rewrite H.
Qed.

(** ** Names *)

Lemma string_of_uint_digits (d : uint) :
  all_digits (NilEmpty.string_of_uint d) = true.
Proof. induction d; simpl; auto. Qed.

Lemma str_digits (n : nat) : all_digits (str n) = true.
Proof. apply string_of_uint_digits. Qed.

Lemma str_inj (a b : nat) : str a = str b -> a = b.
Proof.
  unfold str; intros H.
  assert (E : Some (Nat.to_uint a) = Some (Nat.to_uint b)).
  { rewrite <- !NilEmpty.usu. now rewrite H. }
  injection E as E.
  rewrite <- (Unsigned.of_to a), <- (Unsigned.of_to b). now rewrite E.
Qed.

(** Two digit strings followed by suffixes that start with the underscore
    agree only when the digit strings and the suffixes both agree. *)
Lemma digits_suffix_inj (x y s t : string) :
  all_digits x = true -> all_digits y = true ->
  x ++ String "_" s = y ++ String "_" t -> x = y /\ s = t.
Proof.
  revert y; induction x as [|a x IH]; intros [|b y] Hx Hy E; simpl in *.
  - injection E as E. now split.
  - injection E as Eb E. subst b. simpl in Hy. discriminate.
  - injection E as Ea E. subst a. simpl in Hx. discriminate.
  - injection E as Ea E. subst b.
    apply andb_true_iff in Hx as [_ Hx]. apply andb_true_iff in Hy as [_ Hy].
    destruct (IH y Hx Hy E) as [-> ->]. now split.
Qed.

Lemma spe_name_inj (i j : nat) : spe_name i = spe_name j -> i = j.
Proof.
  unfold spe_name; intros E. simpl in E.
  injection E as E.
  apply digits_suffix_inj in E as [E _]; try apply str_digits.
  apply str_inj in E. lia.
Qed.

Lemma vol_name_inj (i j : nat) : vol_name i = vol_name j -> i = j.
Proof.
  unfold vol_name; intros E. simpl in E.
  injection E as E.
  apply digits_suffix_inj in E as [E _]; try apply str_digits.
  apply str_inj in E. lia.
Qed.

Lemma spe_vol_name_neq (i j : nat) : spe_name i <> vol_name j.
Proof.
  unfold spe_name, vol_name; intros E. simpl in E.
  injection E as E.
  apply digits_suffix_inj in E as [_ E]; try apply str_digits.
  discriminate.
Qed.

(** ** Dicts *)

Lemma dict_set_fresh {V} (k : string) (v : V) (d : list (string * V)) :
  ~ In k (map fst d) -> dict_set k v d = (d ++ [(k, v)])%list.
Proof.
  induction d as [|[k' v'] d IH]; simpl; intros Hk; [reflexivity|].
  destruct (String.eqb_spec k' k) as [->|_].
  - exfalso; apply Hk; now left.
  - f_equal. apply IH. intros Hin; apply Hk; now right.
Qed.

(** ** The reshaper *)

Section ReshaperFacts.

Variable num : Type.
Variable parse_text : string -> option num.
Variable num_of_bool : bool -> num.

Local Abbreviation cell := (cell num).
Local Abbreviation DataFrame := (DataFrame num).
Local Abbreviation coerced := (coerce_col parse_text num_of_bool).
Local Abbreviation pairs := (cycle_pair parse_text num_of_bool).

Lemma convert_cells_coerce (i : nat) (col : list cell) :
  convert_cells parse_text ErrCoerce i col
  = Ok (map (coerce_cell parse_text num_of_bool true) col).
Proof.
  revert i. induction col as [|c col IH]; intros i; cbn [convert_cells map];
    [reflexivity|].
  rewrite IH.
  destruct c as [x|s| |b|]; cbn [convert_cell coerce_cell rbind];
    try reflexivity.
  destruct (String.eqb s EmptyString); [reflexivity|].
  now destruct (parse_text s).
Qed.

Lemma coerce_cell_bool (c : cell) :
  is_bool_value (coerce_cell parse_text num_of_bool true c) = is_bool_cell c.
Proof.
  destruct c as [x|s| |b|]; cbn; try reflexivity.
  destruct (String.eqb s EmptyString); [reflexivity|].
  now destruct (parse_text s).
Qed.

Lemma settle_coerce (col : list cell) :
  settle num_of_bool (map (coerce_cell parse_text num_of_bool true) col)
  = coerced col.
Proof.
  unfold settle, coerce_col.
  assert (Hb : forallb (@is_bool_value num)
                 (map (coerce_cell parse_text num_of_bool true) col)
               = forallb is_bool_cell col).
  { induction col as [|c col IH]; cbn [map forallb]; [reflexivity|].
    now rewrite coerce_cell_bool, IH. }
  rewrite Hb. destruct (forallb is_bool_cell col); [reflexivity|].
  rewrite map_map. apply map_ext. intros c.
  destruct c as [x|s| |b|]; cbn; try reflexivity.
  destruct (String.eqb s EmptyString); [reflexivity|].
  now destruct (parse_text s).
Qed.

Lemma to_numeric_coerce (col : list cell) :
  to_numeric parse_text num_of_bool ErrCoerce col = Ok (coerced col).
Proof.
  unfold to_numeric. rewrite convert_cells_coerce. cbn [rbind].
  now rewrite settle_coerce.
Qed.

Lemma length_coerce_col (col : list cell) : length (coerced col) = length col.
Proof. apply length_map. Qed.

Lemma keep_all {A} (f : nat -> bool) (ls : list nat) (col : list A) :
  (forall l, In l ls -> f l = true) ->
  length col = length ls ->
  keep (map f ls) col = col.
Proof.
  revert col; induction ls as [|l ls IH]; intros [|x col] Hf Hlen;
    simpl in *; try discriminate; try reflexivity.
  rewrite Hf by now left.
  f_equal. apply IH; [intros; apply Hf; now right | lia].
Qed.

(** On a sheet whose rows are labelled 0..n, dropping the label 0 removes
    the first entry of every column. *)
Lemma clean_range (parsed : DataFrame) (n : nat) :
  wf_frame parsed = true ->
  index parsed = seq 0 (S n) ->
  clean parsed = Ok {| index := seq 0 n; columns := map (@tl _) (columns parsed) |}.
Proof.
  intros Hwf Hidx. unfold clean, drop_index. rewrite Hidx. simpl.
  unfold reset_index; simpl.
  assert (Hmask : forall l, In l (seq 1 n) -> negb (Nat.eqb l 0) = true).
  { intros l Hl. apply in_seq in Hl. destruct l; [lia | reflexivity]. }
  rewrite (keep_all _ _ _ Hmask) by reflexivity.
  rewrite length_seq. do 2 f_equal.
  apply map_ext_in. intros col Hcol.
  unfold wf_frame in Hwf. rewrite forallb_forall in Hwf.
  specialize (Hwf col Hcol). apply Nat.eqb_eq in Hwf.
  rewrite Hidx in Hwf. simpl in Hwf. rewrite length_seq in Hwf.
  destruct col as [|x col]; simpl in *; [discriminate|].
  apply keep_all; [exact Hmask | rewrite length_seq; lia].
Qed.


Lemma clean_no_rows (parsed : DataFrame) :
  index parsed = [] -> clean parsed = Raise (KeyError "[0] not found in axis").
Proof. intros H. unfold clean, drop_index. now rewrite H. Qed.

Lemma cycle_pair_keys (cols : list (list cell)) (c : nat) :
  map fst (flat_map (pairs cols) (seq 0 c))
  = flat_map (fun i => [spe_name i; vol_name i]) (seq 0 c).
Proof.
  induction (seq 0 c) as [|i l IH]; simpl; [reflexivity|]. now rewrite IH.
Qed.

Lemma names_fresh (c : nat) (k : string) :
  In k (flat_map (fun i => [spe_name i; vol_name i]) (seq 0 c)) ->
  exists i, i < c /\ (k = spe_name i \/ k = vol_name i).
Proof.
  intros H. apply in_flat_map in H as (i & Hi & Hk).
  apply in_seq in Hi. exists i. split; [lia|].
  simpl in Hk. destruct Hk as [<-|[<-|[]]]; auto.
Qed.

Lemma wide_step_ok (raw : DataFrame) (c : nat) :
  c * 3 + 2 < length (columns raw) ->
  wide_step parse_text num_of_bool raw c (flat_map (pairs (columns raw)) (seq 0 c))
  = Ok (flat_map (pairs (columns raw)) (seq 0 (S c))).
Proof.
  intros Hc. rewrite seq_S, flat_map_app. unfold wide_step, iloc_col.
  destruct (nth_error (columns raw) (c * 3 + 1)) as [spe_col|] eqn:E1;
    [|apply nth_error_None in E1; lia].
  destruct (nth_error (columns raw) (c * 3 + 2)) as [vol_col|] eqn:E2;
    [|apply nth_error_None in E2; lia].
  simpl. rewrite !to_numeric_coerce. simpl.
  rewrite (dict_set_fresh (spe_name c)).
  2:{ rewrite cycle_pair_keys. intros H.
      apply names_fresh in H as (i & Hi & [E|E]).
      - apply spe_name_inj in E. lia.
      - now apply spe_vol_name_neq in E. }
  rewrite dict_set_fresh.
  2:{ rewrite map_app, cycle_pair_keys. simpl. intros H.
      apply in_app_or in H as [H|[H|[]]].
      - apply names_fresh in H as (i & Hi & [E|E]).
        + symmetry in E. now apply spe_vol_name_neq in E.
        + apply vol_name_inj in E. lia.
      - now apply spe_vol_name_neq in H. }
  rewrite <- app_assoc. simpl. unfold cycle_pair.
  now rewrite (nth_error_nth _ _ _ E1), (nth_error_nth _ _ _ E2).
Qed.

Lemma wide_loop_ok (raw : DataFrame) (c : nat) :
  c * 3 <= length (columns raw) ->
  rfold (wide_step parse_text num_of_bool raw) (seq 0 c) []
  = Ok (flat_map (pairs (columns raw)) (seq 0 c)).
Proof.
  induction c as [|c IH]; intros Hc; [reflexivity|].
  rewrite seq_S at 1. rewrite rfold_app, IH by lia. cbn [rfold rbind].
  rewrite wide_step_ok by lia. reflexivity.
Qed.

(** The reshaping loop never raises: the cycle count bounds every column
    position it reads. *)
Lemma build_wide_ok (raw : DataFrame) :
  build_wide parse_text num_of_bool raw
  = Ok (DataFrame_of_dict (index raw)
          (flat_map (pairs (columns raw)) (seq 0 (cycles_of raw)))).
Proof.
  unfold build_wide. rewrite wide_loop_ok; [reflexivity|].
  unfold cycles_of.
  pose proof (Nat.div_mod_eq (length (columns raw)) 3). lia.
Qed.

Lemma flat_pair_length (cols : list (list cell)) (c : nat) :
  length (flat_map (pairs cols) (seq 0 c)) = 2 * c.
Proof.
  induction c as [|c IH]; [reflexivity|].
  rewrite seq_S, flat_map_app, length_app, IH. simpl. lia.
Qed.

Lemma flat_pair_nth (cols : list (list cell)) (c i : nat) :
  i < c ->
  nth_error (flat_map (pairs cols) (seq 0 c)) (2 * i)
  = Some (spe_name i, coerced (nth (i * 3 + 1) cols [])) /\
  nth_error (flat_map (pairs cols) (seq 0 c)) (2 * i + 1)
  = Some (vol_name i, coerced (nth (i * 3 + 2) cols [])).
Proof.
  induction c as [|c IH]; intros Hi; [lia|].
  rewrite seq_S, flat_map_app. cbn [flat_map]. rewrite app_nil_r.
  destruct (Nat.eq_dec i c) as [->|Hne].
  - rewrite !nth_error_app2 by (rewrite flat_pair_length; lia).
    rewrite flat_pair_length.
    replace (2 * c - 2 * c) with 0 by lia.
    replace (2 * c + 1 - 2 * c) with 1 by lia. now split.
  - rewrite !nth_error_app1 by (rewrite flat_pair_length; lia).
    apply IH. lia.
Qed.

End ReshaperFacts.

Section ReshaperProperties.

Variable num : Type.
Variable parse_text : string -> option num.
Variable num_of_bool : bool -> num.
Variable repr : num -> string.

Local Abbreviation coerced := (coerce_col parse_text num_of_bool).
Local Abbreviation pairs := (cycle_pair parse_text num_of_bool).

Lemma reshape_range (parsed : DataFrame num) (n : nat) :
  wf_frame parsed = true ->
  index parsed = seq 0 (S n) ->
  reshape parse_text num_of_bool parsed
  = build_wide parse_text num_of_bool
      {| index := seq 0 n; columns := map (@tl _) (columns parsed) |}.
Proof.
  intros Hwf Hidx. unfold reshape. now rewrite (clean_range _ Hwf Hidx).
Qed.

Lemma nth_map_tl (cols : list (list (cell num))) (j : nat) :
  nth j (map (@tl _) cols) [] = tl (nth j cols []).
Proof. exact (map_nth (@tl _) cols [] j). Qed.

Lemma reshape_pairs (parsed : DataFrame num) (n : nat) :
  wf_frame parsed = true ->
  index parsed = seq 0 (S n) ->
  exists wide,
    reshape parse_text num_of_bool parsed = Ok wide /\
    length (wcols wide) = 2 * cycles_of parsed /\
    map fst (wcols wide)
    = flat_map (fun i => [spe_name i; vol_name i]) (seq 0 (cycles_of parsed)) /\
    forall i, i < cycles_of parsed ->
      nth_error (wcols wide) (2 * i)
      = Some (spe_name i, coerced (tl (nth (i * 3 + 1) (columns parsed) []))) /\
      nth_error (wcols wide) (2 * i + 1)
      = Some (vol_name i, coerced (tl (nth (i * 3 + 2) (columns parsed) []))).
Proof.
  intros Hwf Hidx. rewrite (reshape_range _ Hwf Hidx), build_wide_ok.
  eexists; split; [reflexivity|].
  unfold cycles_of; cbn [wcols DataFrame_of_dict columns index].
  rewrite length_map.
  split; [apply flat_pair_length|].
  split; [apply cycle_pair_keys|].
  intros i Hi. rewrite <- !nth_map_tl. now apply flat_pair_nth.
Qed.

(** C1: for every parsed sheet (with its row 0, as every record sheet has)
    and exactly 3k columns (k >= 1), the reshaper returns a wide table of exactly 2k
    columns named Cycle1_SpeCap, Cycle1_Voltage, ..., Cyclek_SpeCap,
    Cyclek_Voltage in that order, and the pair of cycle i+1 holds the
    converted values of the 2nd and 3rd columns of the (i+1)-th group of
    three source columns, below row 0. *)
Theorem reshape_3k_columns (parsed : DataFrame num) (n k : nat) :
  wf_frame parsed = true ->
  index parsed = seq 0 (S n) ->
  length (columns parsed) = 3 * k ->
  1 <= k ->
  exists wide,
    reshape parse_text num_of_bool parsed = Ok wide /\
    length (wcols wide) = 2 * k /\
    map fst (wcols wide)
    = flat_map (fun i => [spe_name i; vol_name i]) (seq 0 k) /\
    forall i, i < k ->
      nth_error (wcols wide) (2 * i)
      = Some (spe_name i, coerced (tl (nth (i * 3 + 1) (columns parsed) []))) /\
      nth_error (wcols wide) (2 * i + 1)
      = Some (vol_name i, coerced (tl (nth (i * 3 + 2) (columns parsed) []))).
Proof.
  intros Hwf Hidx Hlen _.
  assert (Hk : cycles_of parsed = k).
  { unfold cycles_of. rewrite Hlen, Nat.mul_comm. now apply Nat.div_mul. }
  rewrite <- Hk. now apply reshape_pairs with (n := n).
Qed.

Lemma cycles_of_partial (parsed : DataFrame num) (k r : nat) :
  length (columns parsed) = 3 * k + r -> r < 3 -> cycles_of parsed = k.
Proof.
  intros Hlen Hr. unfold cycles_of. rewrite Hlen.
  symmetry. apply (Nat.div_unique (3 * k + r) 3 k r); lia.
Qed.

Lemma pairs_firstn (cols : list (list (cell num))) (k c : nat) :
  c <= k ->
  flat_map (pairs (firstn (3 * k) cols)) (seq 0 c)
  = flat_map (pairs cols) (seq 0 c).
Proof.
  intros Hc. apply flat_map_ext_in. intros i Hi. apply in_seq in Hi.
  unfold cycle_pair. now rewrite !nth_firstn_lt by lia.
Qed.

(** C2: for every parsed sheet (with its row 0, as every record sheet has)
    and 3k+r columns, r being 1 or 2, the reshaper raises no error, the
    cycle count is the integer quotient k, exactly k cycle pairs are
    emitted, and the output is that of the sheet without its trailing r
    columns. *)
Theorem reshape_partial_group_dropped (parsed : DataFrame num) (n k r : nat) :
  wf_frame parsed = true ->
  index parsed = seq 0 (S n) ->
  length (columns parsed) = 3 * k + r ->
  r = 1 \/ r = 2 ->
  exists wide,
    reshape parse_text num_of_bool parsed = Ok wide /\
    cycles_of parsed = k /\
    length (wcols wide) = 2 * k /\
    map fst (wcols wide)
    = flat_map (fun i => [spe_name i; vol_name i]) (seq 0 k) /\
    reshape parse_text num_of_bool
      {| index := index parsed; columns := firstn (3 * k) (columns parsed) |}
    = Ok wide.
Proof.
  intros Hwf Hidx Hlen Hr.
  assert (Hk : cycles_of parsed = k) by (apply cycles_of_partial with r; lia).
  destruct (reshape_pairs _ Hwf Hidx) as (wide & Hw & Hl & Hn & _).
  exists wide. rewrite Hk in *. repeat split; try assumption.
  rewrite <- Hw, (reshape_range _ Hwf Hidx).
  rewrite (@reshape_range _ n); cbn [index columns].
  - rewrite !build_wide_ok. cbn [index columns]. unfold cycles_of.
    cbn [columns]. rewrite !length_map, length_firstn, Hlen.
    replace (Nat.min (3 * k) (3 * k + r)) with (k * 3) by lia.
    rewrite Nat.div_mul by lia.
    replace ((3 * k + r) / 3) with k
      by (apply (Nat.div_unique (3 * k + r) 3 k r); lia).
    f_equal. f_equal.
    rewrite <- firstn_map. now apply pairs_firstn.
  - unfold wf_frame in *. cbn [index columns].
    rewrite forallb_forall in *. intros c Hc.
    apply Hwf. revert Hc. apply In_firstn.
  - exact Hidx.
Qed.

(** C3: for every parsed sheet with at least one row, row 0 is left out of
    the reshaper's output whatever it holds: the output is the one built
    from the columns below row 0, so each output column holds the
    converted values of rows 1..end of its source column in their order,
    and two sheets that agree below row 0 give the same output. *)
Theorem row0_excluded (parsed : DataFrame num) (n : nat) :
  wf_frame parsed = true ->
  index parsed = seq 0 (S n) ->
  reshape parse_text num_of_bool parsed
  = build_wide parse_text num_of_bool
      {| index := seq 0 n; columns := map (@tl _) (columns parsed) |} /\
  (exists wide,
    reshape parse_text num_of_bool parsed = Ok wide /\
    forall i, i < cycles_of parsed ->
      nth_error (wcols wide) (2 * i)
      = Some (spe_name i, coerced (tl (nth (i * 3 + 1) (columns parsed) []))) /\
      nth_error (wcols wide) (2 * i + 1)
      = Some (vol_name i, coerced (tl (nth (i * 3 + 2) (columns parsed) [])))) /\
  (forall parsed' : DataFrame num,
    wf_frame parsed' = true ->
    index parsed' = index parsed ->
    map (@tl _) (columns parsed') = map (@tl _) (columns parsed) ->
    reshape parse_text num_of_bool parsed' = reshape parse_text num_of_bool parsed).
Proof.
  intros Hwf Hidx. split; [now apply reshape_range|]. split.
  - destruct (reshape_pairs _ Hwf Hidx) as (wide & Hw & _ & _ & Hv).
    now exists wide.
  - intros parsed' Hwf' Hidx' Hcols. rewrite Hidx in Hidx'.
    rewrite (reshape_range _ Hwf Hidx), (reshape_range _ Hwf' Hidx').
    now rewrite Hcols.
Qed.

Lemma nth_error_combine_seq {A} (l : list A) (a r : nat) (d : A) :
  r < length l ->
  nth_error (combine (seq a (length l)) l) r = Some (a + r, nth r l d).
Proof.
  revert a r. induction l as [|x l IH]; intros a r Hr; simpl in Hr; [lia|].
  destruct r as [|r]; cbn [length seq combine nth_error nth].
  - now rewrite Nat.add_0_r.
  - rewrite IH by lia. do 2 f_equal. lia.
Qed.

(** The record of row [r] holds, at the position of a column, the field of
    the value of that column in that row. *)
Lemma to_csv_field (w : WideTable num) (r p : nat) (name : string)
      (vals : list (value num)) :
  r < length (windex w) ->
  nth_error (wcols w) p = Some (name, vals) ->
  exists record,
    nth_error (to_csv repr false w) (S r) = Some record /\
    nth_error record p = Some (field repr (nth r vals VNaN)).
Proof.
  intros Hr Hp. unfold to_csv. cbn [nth_error].
  rewrite nth_error_map, (nth_error_combine_seq _ 0 0 Hr). cbn [option_map].
  eexists. split; [reflexivity|].
  unfold csv_record. cbn [fst]. now rewrite nth_error_map, Hp.
Qed.

Lemma coerce_cell_cases (all_bool : bool) (c : cell num) :
  match c with
  | CNum x => coerce_cell parse_text num_of_bool all_bool c = VNum x
  | CText s =>
      if String.eqb s EmptyString
      then coerce_cell parse_text num_of_bool all_bool c = VNaN
      else match parse_text s with
           | Some x => coerce_cell parse_text num_of_bool all_bool c = VNum x
           | None => coerce_cell parse_text num_of_bool all_bool c = VNaN
           end
  | CBool b =>
      if all_bool
      then coerce_cell parse_text num_of_bool all_bool c = VBool b
      else coerce_cell parse_text num_of_bool all_bool c = VNum (num_of_bool b)
  | CEmpty => coerce_cell parse_text num_of_bool all_bool c = VNaN
  | COther => coerce_cell parse_text num_of_bool all_bool c = VNaN
  end.
Proof.
  destruct c as [x|s| |b|]; cbn [coerce_cell]; try reflexivity.
  - destruct (String.eqb s EmptyString); [reflexivity|].
    now destruct (parse_text s).
  - now destruct all_bool.
Qed.

(** C4, with the booleans: the reshaping loop of [process_file] never
    raises, whatever the cells of the frame hold, and for every cell of a
    SpeCap or Voltage source column the numeric conversion gives one
    value, in the same row of the output column: a number is kept, a text
    that parses as a number becomes that number, and an empty text, a text
    that does not parse, a date or other object and an empty cell become
    the missing-value marker, which the CSV holds as the empty field; a
    boolean is kept as a boolean when its column holds nothing but
    booleans and becomes the number 1 or 0 otherwise. The field of the CSV
    in that row and column is the field of that value. *)
Theorem numeric_conversion_never_raises (raw : DataFrame num) :
  exists wide,
    build_wide parse_text num_of_bool raw = Ok wide /\
    forall i j col,
      i < cycles_of raw -> j = 1 \/ j = 2 ->
      nth_error (columns raw) (i * 3 + j) = Some col ->
      exists name vals,
        nth_error (wcols wide) (2 * i + (j - 1)) = Some (name, vals) /\
        length vals = length col /\
        forall r c, nth_error col r = Some c ->
          exists v,
            nth_error vals r = Some v /\
            match c with
            | CNum x => v = VNum x
            | CText s =>
                if String.eqb s EmptyString then v = VNaN
                else match parse_text s with
                     | Some x => v = VNum x
                     | None => v = VNaN
                     end
            | CBool b =>
                if forallb is_bool_cell col then v = VBool b
                else v = VNum (num_of_bool b)
            | CEmpty => v = VNaN
            | COther => v = VNaN
            end /\
            (v = VNaN -> field repr v = EmptyString) /\
            (r < length (index raw) ->
             exists record,
               nth_error (to_csv repr false wide) (S r) = Some record /\
               nth_error record (2 * i + (j - 1)) = Some (field repr v)).
Proof.
  rewrite build_wide_ok. eexists. split; [reflexivity|].
  intros i j col Hi Hj Hcol.
  destruct (@flat_pair_nth _ parse_text num_of_bool (columns raw)
              (cycles_of raw) i Hi) as [Hs Hv].
  assert (Hp : exists name,
             nth_error (flat_map (pairs (columns raw)) (seq 0 (cycles_of raw)))
                       (2 * i + (j - 1))
             = Some (name, coerced col)).
  { destruct Hj as [-> | ->]; cbn [Nat.sub].
    - rewrite Nat.add_0_r, Hs, (nth_error_nth _ _ _ Hcol). now eexists.
    - rewrite Hv, (nth_error_nth _ _ _ Hcol). now eexists. }
  destruct Hp as (name & Hp).
  exists name, (coerced col). cbn [wcols DataFrame_of_dict].
  split; [exact Hp|]. split; [apply length_coerce_col|].
  intros r c Hc.
  set (v := coerce_cell parse_text num_of_bool (forallb is_bool_cell col) c).
  assert (Hv' : nth_error (coerced col) r = Some v)
    by (unfold coerce_col; now rewrite nth_error_map, Hc).
  exists v. split; [exact Hv'|]. split; [|split].
  - pose proof (coerce_cell_cases (forallb is_bool_cell col) c) as H.
    fold v in H. exact H.
  - intros ->. reflexivity.
  - intros Hr.
    rewrite <- (nth_error_nth _ _ VNaN Hv').
    apply to_csv_field with (name := name); [|exact Hp].
    unfold DataFrame_of_dict; cbn [windex].
    destruct (flat_map (pairs (columns raw)) (seq 0 (cycles_of raw)));
      [now destruct (2 * i + (j - 1)) | exact Hr].
Qed.

End ReshaperProperties.

(** ** Paths *)

Local Open Scope Z_scope.

Lemma rfind_range (c : ascii) (s : string) :
  -1 <= rfind c s < Z.of_nat (String.length s).
Proof.
  induction s as [|a r IH]; simpl String.length; cbn [rfind]; [lia|].
  destruct (Z.leb_spec 0 (rfind c r)); [lia|].
  destruct (Ascii.eqb a c); lia.
Qed.

Lemma rfind_app (c : ascii) (s t : string) :
  rfind c (s ++ t)
  = if 0 <=? rfind c t then Z.of_nat (String.length s) + rfind c t
    else rfind c s.
Proof.
  induction s as [|a r IH].
  - simpl. destruct (Z.leb_spec 0 (rfind c t)); [lia|].
    pose proof (rfind_range c t). lia.
  - change (String a r ++ t)%string with (String a (r ++ t)).
    cbn [rfind]. rewrite IH. simpl String.length.
    destruct (Z.leb_spec 0 (rfind c t)).
    + destruct (Z.leb_spec 0 (Z.of_nat (String.length r) + rfind c t)); lia.
    + reflexivity.
Qed.

Lemma append_empty_r (s : string) : (s ++ EmptyString)%string = s.
Proof. induction s as [|a r IH]; simpl; [reflexivity | now rewrite IH]. Qed.

Lemma take_all (s : string) : take (String.length s) s = s.
Proof. induction s as [|a r IH]; simpl; [reflexivity | now rewrite IH]. Qed.

Lemma take_drop (n : nat) (s : string) : (take n s ++ drop n s)%string = s.
Proof.
  revert s; induction n as [|n IH]; intros [|a r]; simpl; try reflexivity.
  now rewrite IH.
Qed.

Lemma length_take (n : nat) (s : string) :
  String.length (take n s) = Nat.min n (String.length s).
Proof.
  revert s; induction n as [|n IH]; intros [|a r]; simpl; try reflexivity.
  now rewrite IH.
Qed.

Lemma take_app_le (n : nat) (s t : string) :
  (n <= String.length s)%nat -> take n (s ++ t) = take n s.
Proof.
  revert s; induction n as [|n IH]; intros [|a r] H; simpl in *;
    try reflexivity; try lia.
  rewrite IH by lia. reflexivity.
Qed.

Lemma take_take (n d : nat) (s : string) :
  (n <= d)%nat -> take n (take d s) = take n s.
Proof.
  revert d s; induction n as [|n IH]; intros [|d] [|a r] H; simpl;
    try reflexivity; try lia.
  rewrite IH by lia. reflexivity.
Qed.

(** Cutting a string after the last occurrence of a character keeps that
    occurrence the last one. *)
Lemma rfind_take (c : ascii) (d : nat) (s : string) :
  rfind c s < Z.of_nat d -> rfind c (take d s) = rfind c s.
Proof.
  revert d; induction s as [|a r IH]; intros [|d] H; try reflexivity.
  - pose proof (rfind_range c (String a r)).
    simpl take. change (rfind c EmptyString) with (-1). lia.
  - simpl take. cbn [rfind] in *.
    rewrite (IH d); [reflexivity|].
    revert H. destruct (Z.leb_spec 0 (rfind c r)); intros; lia.
Qed.

Lemma skip_leading_dots_cases (p : string) (f n d : nat) :
  skip_leading_dots p f n d = (p, EmptyString) \/
  skip_leading_dots p f n d = (take d p, drop d p).
Proof.
  revert f; induction n as [|n IH]; intros f; simpl; [now left|].
  destruct (String.get f p) as [a|]; [|now right].
  destruct (Ascii.eqb a extsep); [apply IH | now right].
Qed.

(** [splitext] returns the path whole, or cuts it at a dot that lies after
    the last separator. *)
Lemma splitext_cases (p : string) :
  splitext p = (p, EmptyString) \/
  (sepIndex p < rfind extsep p /\
   splitext p = (take (Z.to_nat (rfind extsep p)) p,
                 drop (Z.to_nat (rfind extsep p)) p)).
Proof.
  unfold splitext. destruct (Z.ltb_spec (sepIndex p) (rfind extsep p)) as [H|H].
  - destruct (skip_leading_dots_cases p (Z.to_nat (sepIndex p + 1))
                (Z.to_nat (rfind extsep p - (sepIndex p + 1)))
                (Z.to_nat (rfind extsep p))) as [E|E]; rewrite E; auto.
  - now left.
Qed.

Lemma splitext_join (p : string) :
  (fst (splitext p) ++ snd (splitext p))%string = p.
Proof.
  destruct (splitext_cases p) as [E|[_ E]]; rewrite E; simpl.
  - apply append_empty_r.
  - apply take_drop.
Qed.

Lemma sepIndex_range (p : string) :
  -1 <= sepIndex p < Z.of_nat (String.length p).
Proof.
  unfold sepIndex.
  pose proof (rfind_range sep p). pose proof (rfind_range altsep p). lia.
Qed.

(** A suffix without separators, appended to the root of [p], leaves the
    directory part of [p] unchanged. *)
Lemma dir_part_root_suffix (p suffix : string) :
  rfind sep suffix = -1 -> rfind altsep suffix = -1 ->
  dir_part (fst (splitext p) ++ suffix) = dir_part p.
Proof.
  intros Hs Ha. pose proof (sepIndex_range p) as Hr.
  assert (Hroot : exists d : nat,
             fst (splitext p) = take d p /\ sepIndex p < Z.of_nat d).
  { destruct (splitext_cases p) as [E|[Hlt E]]; rewrite E; simpl.
    - exists (String.length p). split; [now rewrite take_all | lia].
    - exists (Z.to_nat (rfind extsep p)). split; [reflexivity | lia]. }
  destruct Hroot as (d & -> & Hd).
  assert (Hsi : sepIndex (take d p ++ suffix) = sepIndex p).
  { unfold sepIndex in *. rewrite !rfind_app, Hs, Ha. simpl.
    rewrite !rfind_take by lia. reflexivity. }
  unfold dir_part. rewrite Hsi.
  rewrite take_app_le.
  - apply take_take. lia.
  - rewrite length_take. lia.
Qed.

Local Close Scope Z_scope.

(** *** The reshaper on concrete sheets *)

Example reshape_example_sheet :
  reshape example_parse example_num_of_bool example_sheet
  = Ok {| windex := [0; 1];
          wcols := [ ("Cycle1_SpeCap", [VNum 5%Z; VNum 9%Z]);
                     ("Cycle1_Voltage", [VNum 37%Z; VNaN]);
                     ("Cycle2_SpeCap", [VNaN; VNum 8%Z]);
                     ("Cycle2_Voltage", [VNum 36%Z; VNum 35%Z]) ] |}.
Proof. reflexivity. Qed.

Example to_csv_example_sheet :
  to_csv example_repr false
    {| windex := [0; 1];
       wcols := [ ("Cycle1_SpeCap", [VNum 5%Z; VNum 9%Z]);
                  ("Cycle1_Voltage", [VNum 37%Z; VNaN]) ] |}
  = [ ["Cycle1_SpeCap"; "Cycle1_Voltage"]; ["5"; "37"]; ["9"; EmptyString] ].
Proof. reflexivity. Qed.

Lemma reshape_3k_columns_witness :
  exists wide,
    reshape example_parse example_num_of_bool example_sheet = Ok wide /\
    length (wcols wide) = 2 * 2 /\
    map fst (wcols wide)
    = ["Cycle1_SpeCap"; "Cycle1_Voltage"; "Cycle2_SpeCap"; "Cycle2_Voltage"].
Proof.
  destruct (@reshape_3k_columns Z example_parse example_num_of_bool example_sheet 2 2
              eq_refl eq_refl eq_refl (le_S 1 1 (le_n 1)))
    as (wide & Hw & Hl & Hn & _).
  exists wide. split; [exact Hw|]. split; [exact Hl | exact Hn].
Defined.

(** A sheet that has its columns but no row: the removal of row 0 raises
    and no table is produced. *)
Example reshape_sheet_without_rows :
  reshape example_parse example_num_of_bool sheet_no_rows3
  = Raise (KeyError "[0] not found in axis").
Proof. reflexivity. Qed.

Lemma reshape_partial_group_dropped_witness :
  exists wide,
    reshape example_parse example_num_of_bool example_sheet_partial = Ok wide /\
    cycles_of example_sheet_partial = 2 /\
    length (wcols wide) = 2 * 2 /\
    reshape example_parse example_num_of_bool example_sheet = Ok wide.
Proof.
  destruct (@reshape_partial_group_dropped Z example_parse example_num_of_bool
              example_sheet_partial 2 2 1 eq_refl eq_refl eq_refl
              (or_introl eq_refl))
    as (wide & Hw & Hc & Hl & _ & Ht).
  exists wide. split; [exact Hw|]. split; [exact Hc|]. split; [exact Hl | exact Ht].
Defined.

Lemma row0_excluded_witness :
  reshape example_parse example_num_of_bool example_sheet
  = build_wide example_parse example_num_of_bool
      {| index := [0; 1]; columns := map (@tl _) (columns example_sheet) |}.
Proof.
  exact (proj1 (@row0_excluded Z example_parse example_num_of_bool example_sheet 2 eq_refl eq_refl)).
Defined.

(** C4 with a boolean cell: in a column that holds booleans only, the cell
    [True] is neither turned into the missing-value marker nor into a
    number; the table and the CSV keep it as a boolean. *)
Lemma boolean_cell_kept :
  exists wide vals,
    reshape example_parse example_num_of_bool bool_sheet = Ok wide /\
    nth_error (nth 1 (columns bool_sheet) []) 1 = Some (CBool true) /\
    nth_error (wcols wide) 0 = Some ("Cycle1_SpeCap", vals) /\
    nth_error vals 0 = Some (VBool true) /\
    VBool true <> @VNaN Z /\
    (forall x : Z, VBool true <> VNum x) /\
    nth_error (nth 1 (to_csv example_repr false wide) []) 0 = Some "True".
Proof.
  eexists. eexists. split; [reflexivity|].
  repeat split; try reflexivity; [discriminate | intros x; discriminate].
Qed.

Lemma numeric_conversion_never_raises_witness :
  exists wide,
    build_wide example_parse example_num_of_bool
      {| index := [0; 1]; columns := map (@tl _) (columns bool_sheet) |}
    = Ok wide /\
    nth_error (wcols wide) 1 = Some ("Cycle1_Voltage", [VNum 37%Z; VNum 1%Z]).
Proof.
  destruct (@numeric_conversion_never_raises Z example_parse
              example_num_of_bool example_repr
              {| index := [0; 1]; columns := map (@tl _) (columns bool_sheet) |})
    as (wide & Hw & _).
  exists wide. split; [exact Hw|].
  injection Hw as <-. reflexivity.
Defined.

(** ** Running computations *)

Lemma runs_ret {A} (a : A) (w : World) : runs (ret a) w a w.
Proof. reflexivity. Qed.

Lemma runs_lift {A} (r : result A) (a : A) (w : World) :
  r = Ok a -> runs (lift r) w a w.
Proof. intros ->. reflexivity. Qed.

Lemma runs_bind {A B} (c : M A) (k : A -> M B) w a w1 b w2 :
  runs c w a w1 -> runs (k a) w1 b w2 -> runs (bind c k) w b w2.
Proof. unfold runs, bind. intros -> H. exact H. Qed.

Lemma runs_try_pass (c : M unit) w w1 :
  runs c w tt w1 -> runs (try_pass c) w tt w1.
Proof. unfold runs, try_pass. now intros ->. Qed.

Lemma runs_mock (c : call) (w : World) :
  runs (mock_origin c) w tt (log_calls [c] w).
Proof. reflexivity. Qed.

Lemma runs_write_file path content (w : World) :
  runs (write_file path content) w tt
       (mkWorld (progress_value w) (origin_log w)
                (disk w ++ [(path, content)]) (dialogs w) (threads w)).
Proof. reflexivity. Qed.

Lemma advance_advance (f g : Z -> Z) (cs1 cs2 : list call) (w : World) :
  advance g cs2 (advance f cs1 w) = advance (fun v => g (f v)) (cs1 ++ cs2) w.
Proof. unfold advance; simpl. now rewrite app_assoc. Qed.

Lemma log_calls_nil (w : World) : log_calls [] w = w.
Proof. destruct w; unfold log_calls, advance; simpl. now rewrite app_nil_r. Qed.

Lemma for_each_app {A} (xs ys : list A) (body : A -> M unit) (w : World) :
  for_each (xs ++ ys) body w = (for_each xs body ;; for_each ys body) w.
Proof.
  revert w; induction xs as [|x xs IH]; intros w; simpl; [reflexivity|].
  unfold bind. destruct (body x w) as [[[]|e] w1]; [|reflexivity].
  rewrite IH. reflexivity.
Qed.

(** [for i in range(n)], one more round. *)
Lemma runs_for_range_S (n : nat) (body : nat -> M unit) w w1 w2 :
  runs (for_range n body) w tt w1 ->
  runs (body n) w1 tt w2 ->
  runs (for_range (S n) body) w tt w2.
Proof.
  unfold for_range. intros H1 H2. unfold runs.
  rewrite seq_S, for_each_app.
  eapply runs_bind; [exact H1|]. simpl.
  eapply runs_bind; [exact H2 | apply runs_ret].
Qed.

Lemma runs_eq {A} (c : M A) w a w1 w2 :
  runs c w a w1 -> w1 = w2 -> runs c w a w2.
Proof. now intros H <-. Qed.

Lemma runs_update_progress (v : Z) (w : World) :
  runs (update_progress v) w tt
       (mkWorld (Z.min 100 (progress_value w + v)) (origin_log w) (disk w)
                (dialogs w) (threads w)).
Proof. reflexivity. Qed.

Lemma runs_floordiv (a b : Z) (w : World) :
  b <> 0%Z -> runs (lift (py_floordiv a b)) w (a / b)%Z w.
Proof.
  intros Hb. apply runs_lift. unfold py_floordiv.
  now destruct (Z.eqb_spec b 0).
Qed.

(** Runs a chain of calls on the mock target. *)
Ltac run_mock :=
  repeat (eapply runs_bind; [apply runs_mock|]); try apply runs_mock.

Section DriverFacts.

Variable oext : bool.
Variable basename : string -> string.
Variable abspath : string -> string.

Lemma axis_loop_runs (n : nat) (w : World) :
  runs (for_range n (fun i =>
          mock_origin (ColsAxis "X" (i * 2)) ;;
          mock_origin (ColsAxis "Y" (i * 2 + 1)))) w tt
       (log_calls (axis_calls n) w).
Proof.
  induction n as [|n IH].
  - unfold axis_calls; simpl. rewrite log_calls_nil. reflexivity.
  - eapply runs_for_range_S; [exact IH|].
    eapply runs_eq; [run_mock|].
    unfold log_calls. rewrite !advance_advance. unfold axis_calls.
    rewrite seq_S, flat_map_app. simpl. rewrite <- ?app_assoc; reflexivity.
Qed.


(** The plot loop with [update_progress]: two calls per cycle, and the
    bar moved once per cycle. *)
Lemma plot_loop_runs (cycles n : nat) (w : World) :
  n <= cycles ->
  runs (for_range n (plot_step mock_origin cycles (Some update_progress))) w tt
       (advance (bar_after cycles n) (plot_calls n) w).
Proof.
  induction n as [|n IH]; intros Hn.
  - unfold plot_calls, bar_after; simpl.
    fold (log_calls [] w). rewrite log_calls_nil. reflexivity.
  - eapply runs_for_range_S; [apply IH; lia|].
    eapply runs_eq.
    + unfold plot_step; run_mock.
      eapply runs_bind; [apply runs_floordiv; lia|].
      apply runs_update_progress.
    + unfold log_calls. rewrite !advance_advance.
      unfold advance; simpl. f_equal.
      unfold plot_calls. rewrite seq_S, flat_map_app. simpl.
      rewrite <- ?app_assoc; reflexivity.
Qed.

End DriverFacts.

Lemma cycle_calls_succ (i : nat) :
  cycle_calls (S i) = [AddPlot (i * 2 + 1) (i * 2); SetPlotName (plot_name i)].
Proof.
  unfold cycle_calls, plot_name.
  replace (S i - 1) with i by lia. replace (i + 1) with (S i) by lia.
  replace (i * 2) with (2 * i) by lia. reflexivity.
Qed.

Lemma plot_calls_by_cycle (k : nat) :
  plot_calls k = flat_map cycle_calls (seq 1 k).
Proof.
  unfold plot_calls.
  assert (H : forall a,
             flat_map (fun i => [AddPlot (i * 2 + 1) (i * 2);
                                 SetPlotName (plot_name i)]) (seq a k)
             = flat_map cycle_calls (seq (S a) k)).
  { induction k as [|k IH]; intros a; [reflexivity|].
    cbn [seq flat_map]. now rewrite IH, cycle_calls_succ. }
  apply H.
Qed.

Lemma add_plot_calls (l : list nat) :
  filter is_add_plot (flat_map cycle_calls l)
  = map (fun n => AddPlot (2 * (n - 1) + 1) (2 * (n - 1))) l.
Proof. induction l as [|n l IH]; simpl; [reflexivity | now rewrite IH]. Qed.


Lemma to_csv_no_index {num} (repr : num -> string) (w : WideTable num) :
  Forall (fun record => length record = length (wcols w)) (to_csv repr false w).
Proof.
  unfold to_csv. constructor; [apply length_map|].
  apply Forall_forall. intros record H. apply in_map_iff in H as (r & <- & _).
  unfold csv_record. apply length_map.
Qed.

(** ** The run of [process_file] on the mock target *)

Section ProcessFileFacts.

Variable num : Type.
Variable parse_text : string -> option num.
Variable num_of_bool : bool -> num.
Variable repr : num -> string.
Variable read_record_sheet : string -> result (DataFrame num).
Variable basename : string -> string.
Variable abspath : string -> string.
Variable oext : bool.

Local Abbreviation run_file :=
  (process_file parse_text num_of_bool repr read_record_sheet basename abspath oext
                mock_origin).

Ltac run_step :=
  eapply runs_bind;
  [ first [ apply runs_mock
          | apply runs_write_file
          | apply runs_try_pass; apply runs_mock
          | apply axis_loop_runs
          | apply plot_loop_runs; lia
          | apply runs_lift; eassumption
          | apply runs_lift; apply build_wide_ok ] | ].

Lemma process_file_runs (xlsx_path template_path : string)
      (parsed raw : DataFrame num) (w : World) :
  read_record_sheet xlsx_path = Ok parsed ->
  clean parsed = Ok raw ->
  runs (run_file xlsx_path template_path (Some update_progress)) w tt
    (mkWorld
       (bar_after (cycles_of raw) (cycles_of raw) (progress_value w))
       (origin_log w
        ++ driver_calls oext basename xlsx_path template_path
             (csv_path_of xlsx_path) (proj_path_of abspath xlsx_path)
             (cycles_of raw))
       (disk w
        ++ [(csv_path_of xlsx_path,
             to_csv repr false
               (DataFrame_of_dict (index raw)
                  (flat_map (cycle_pair parse_text num_of_bool (columns raw))
                            (seq 0 (cycles_of raw)))))])
       (dialogs w) (threads w)).
Proof.
  intros Hread Hclean. unfold process_file, plot_cycles. cbv zeta.
  eapply runs_eq.
  - do 4 run_step.
    eapply runs_bind.
    { instantiate (1 := log_calls (if oext then [OpNew; OpSetShow true] else []) _).
      destruct oext.
      - eapply runs_eq; [run_mock|].
        unfold log_calls. now rewrite advance_advance.
      - rewrite log_calls_nil. apply runs_ret. }
    do 16 run_step. apply runs_mock.
  - unfold log_calls. rewrite !advance_advance.
    unfold advance; cbn [progress_value origin_log disk dialogs threads].
    f_equal; unfold driver_calls; rewrite <- ?app_assoc; reflexivity.
Qed.

End ProcessFileFacts.

Lemma driver_calls_last (oext : bool) (basename : string -> string)
      (xlsx_path template_path csv_path proj_path : string) (cycles : nat)
      (log : list call) :
  last (log ++ driver_calls oext basename xlsx_path template_path csv_path
                 proj_path cycles) OpExit
  = Save proj_path.
Proof.
  unfold driver_calls.
  match goal with
  | |- context [[?a; ?b; ?c; ?d; ?e; ?f; ?g; Save proj_path]] =>
      change [a; b; c; d; e; f; g; Save proj_path]
        with ([a; b; c; d; e; f; g] ++ [Save proj_path])%list
  end.
  rewrite !app_assoc. apply last_last.
Qed.

(** ** Output paths *)

Section OutputPaths.

Variable num : Type.
Variable parse_text : string -> option num.
Variable num_of_bool : bool -> num.
Variable repr : num -> string.
Variable read_record_sheet : string -> result (DataFrame num).
Variable basename : string -> string.
Variable abspath : string -> string.
Variable oext : bool.

(** What a path string denotes on disk; [abspath] names the same place
    as its argument. *)
Variable Location : Type.
Variable locate : string -> Location.
Hypothesis abspath_same_file : forall q, locate (abspath q) = locate q.

(** C5: for every input spreadsheet path, the run of [process_file]
    writes the CSV to [splitext(p)[0] + "_plotdata.csv"], every record
    of it having one field per table column (no index column), and ends
    by saving the project to (the absolute form of)
    [splitext(p)[0] + ".opju"]; the root is [p] without its extension,
    and both paths have the directory part of [p]. *)
Theorem output_paths_share_stem (xlsx_path template_path : string)
        (parsed raw : DataFrame num) (w : World) :
  read_record_sheet xlsx_path = Ok parsed ->
  clean parsed = Ok raw ->
  let root := fst (splitext xlsx_path) in
  exists wide w',
    build_wide parse_text num_of_bool raw = Ok wide /\
    runs (process_file parse_text num_of_bool repr read_record_sheet basename abspath
                       oext mock_origin xlsx_path template_path
                       (Some update_progress)) w tt w' /\
    disk w' = (disk w ++ [((root ++ "_plotdata.csv")%string,
                           to_csv repr false wide)])%list /\
    Forall (fun record => length record = length (wcols wide))
           (to_csv repr false wide) /\
    last (origin_log w') OpExit = Save (abspath (root ++ ".opju")) /\
    locate (abspath (root ++ ".opju")) = locate (root ++ ".opju") /\
    root ++ snd (splitext xlsx_path) = xlsx_path /\
    dir_part (root ++ "_plotdata.csv") = dir_part xlsx_path /\
    dir_part (root ++ ".opju") = dir_part xlsx_path.
Proof.
  intros Hread Hclean root.
  eexists. eexists.
  split; [apply build_wide_ok|].
  split; [eapply process_file_runs; eassumption|].
  cbn [disk origin_log].
  split; [reflexivity|].
  split; [apply to_csv_no_index|].
  split; [apply driver_calls_last|].
  split; [apply abspath_same_file|].
  split; [apply splitext_join|].
  split; apply dir_part_root_suffix; reflexivity.
Qed.

End OutputPaths.

Lemma example_abspath_same_file (q : string) :
  example_abspath (example_abspath q) = example_abspath q.
Proof.
  unfold example_abspath.
  destruct (String.prefix "C:" q) eqn:E; [now rewrite E | reflexivity].
Qed.

Lemma output_paths_share_stem_witness :
  exists wide w',
    build_wide example_parse example_num_of_bool
      {| index := [0; 1]; columns := map (@tl _) (columns example_sheet) |}
    = Ok wide /\
    runs (process_file example_parse example_num_of_bool example_repr example_read example_basename
                       example_abspath true mock_origin
                       "C:/data/run1.xlsx" "C:/data/cv.otpu"
                       (Some update_progress)) world0 tt w' /\
    disk w' = [("C:/data/run1_plotdata.csv", to_csv example_repr false wide)] /\
    last (origin_log w') OpExit = Save "C:/data/run1.opju" /\
    dir_part "C:/data/run1_plotdata.csv" = "C:/data/".
Proof.
  destruct (@output_paths_share_stem Z example_parse example_num_of_bool example_repr example_read
              example_basename example_abspath true string example_abspath
              example_abspath_same_file
              "C:/data/run1.xlsx" "C:/data/cv.otpu" example_sheet
              {| index := [0; 1]; columns := map (@tl _) (columns example_sheet) |}
              world0 eq_refl eq_refl)
    as (wide & w' & Hb & Hr & Hd & _ & Hs & _ & _ & Hdir & _).
  exists wide, w'. repeat split; assumption.
Defined.

Lemma axis_calls_no_plot (k : nat) : filter is_add_plot (axis_calls k) = [].
Proof.
  unfold axis_calls. induction (seq 0 k) as [|i l IH]; simpl; [reflexivity|].
  exact IH.
Qed.

Lemma driver_add_plot_calls (oext : bool) (basename : string -> string)
      (xlsx_path template_path csv_path proj_path : string) (k : nat) :
  filter is_add_plot
    (driver_calls oext basename xlsx_path template_path csv_path proj_path k)
  = map (fun n => AddPlot (2 * (n - 1) + 1) (2 * (n - 1))) (seq 1 k).
Proof.
  unfold driver_calls. rewrite !filter_app, axis_calls_no_plot.
  rewrite plot_calls_by_cycle, add_plot_calls.
  destruct oext; simpl; now rewrite app_nil_r.
Qed.

(** ** The plot loop *)


(** ** Progress *)

Local Open Scope Z_scope.






Lemma update_progress_step (v : Z) (w : World) :
  0 <= v -> progress_value w <= 100 ->
  progress_value w <= Z.min 100 (progress_value w + v) <= 100.
Proof. lia. Qed.

Lemma update_progress_runs_many (vs : list Z) (w : World) :
  Forall (fun v => 0 <= v) vs ->
  progress_value w <= 100 ->
  exists w',
    runs (for_each vs update_progress) w tt w' /\
    progress_value w <= progress_value w' <= 100.
Proof.
  intros Hvs. revert w. induction Hvs as [|v vs Hv _ IH]; intros w Hw.
  - exists w. split; [apply runs_ret | lia].
  - pose proof (update_progress_step w Hv Hw) as Hstep.
    destruct (IH (mkWorld (Z.min 100 (progress_value w + v)) (origin_log w)
                          (disk w) (dialogs w) (threads w)))
      as (w' & Hr & Hb); [cbn [progress_value]; lia|].
    exists w'. split.
    + cbn [for_each]. eapply runs_bind; [apply runs_update_progress | exact Hr].
    + cbn [progress_value] in Hb. lia.
Qed.

(** C10: for every progress update with a non-negative increment v on a
    bar that is at most 100, [update_progress] returns, the new bar value
    is min(100, current + v), it does not exceed 100 and it is not below
    the current value; nothing else changes; hence over any run of such
    updates (the reports between two resets) the bar stays within 100 and
    never decreases. *)
Theorem update_progress_capped (v : Z) (w : World) :
  0 <= v ->
  progress_value w <= 100 ->
  (exists w',
     runs (update_progress v) w tt w' /\
     progress_value w' = Z.min 100 (progress_value w + v) /\
     progress_value w' <= 100 /\
     progress_value w <= progress_value w' /\
     (origin_log w', disk w', dialogs w', threads w')
     = (origin_log w, disk w, dialogs w, threads w)) /\
  (forall vs, Forall (fun v' => 0 <= v') vs ->
     exists w',
       runs (for_each vs update_progress) w tt w' /\
       progress_value w <= progress_value w' <= 100).
Proof.
  intros Hv Hw. split.
  - eexists. split; [apply runs_update_progress|].
    cbn [progress_value origin_log disk dialogs threads].
    repeat split; lia.
  - intros vs Hvs. now apply update_progress_runs_many.
Qed.

Lemma update_progress_capped_witness :
  exists w',
    runs (update_progress 70) world0 tt w' /\
    progress_value w' = 100.
Proof.
  destruct (proj1 (@update_progress_capped 70 world0
                     ltac:(discriminate) ltac:(discriminate)))
    as (w' & Hr & Hp & _).
  exists w'. split; [exact Hr | exact Hp].
Defined.

Local Close Scope Z_scope.

(** ** The batch controller *)

Section BatchFacts.

Variable path_exists : string -> bool.

Lemma first_missing_some (files : list string) (f : string) :
  first_missing path_exists files = Some f ->
  In f files /\ path_exists f = false.
Proof.
  induction files as [|g files IH]; simpl; [discriminate|].
  destruct (path_exists g) eqn:E.
  - intros H. destruct (IH H). auto.
  - intros [= <-]. auto.
Qed.

Lemma first_missing_none (files : list string) :
  first_missing path_exists files = None <->
  forall f, In f files -> path_exists f = true.
Proof.
  induction files as [|g files IH]; simpl.
  - split; [intros _ f [] | reflexivity].
  - destruct (path_exists g) eqn:E.
    + rewrite IH. split.
      * intros H f [<-|Hf]; auto.
      * intros H f Hf. apply H. now right.
    + split; [discriminate|]. intros H.
      rewrite (H g) in E by now left. discriminate.
Qed.

(** C7: a batch-start request whose file list is empty, or one of whose
    listed spreadsheet paths does not exist, or whose template path does
    not exist, shows an error and returns with no worker started, the bar
    untouched and nothing else changed; a request whose file list is not
    empty and all of whose paths exist resets the bar to 0 and starts
    exactly one worker, on the listed files and the template. *)
Theorem start_batch_guard (files_str templ : string) (w : World) :
  (files_str = EmptyString \/
   (exists f, In f (split ";" files_str) /\ path_exists f = false) \/
   path_exists templ = false ->
   exists message,
     runs (_start_batch path_exists files_str templ) w tt
          (mkWorld (progress_value w) (origin_log w) (disk w)
                   (dialogs w ++ [ShowError "Error" message]) (threads w))) /\
  (files_str <> EmptyString ->
   (forall f, In f (split ";" files_str) -> path_exists f = true) ->
   path_exists templ = true ->
   runs (_start_batch path_exists files_str templ) w tt
        (mkWorld 0 (origin_log w) (disk w) (dialogs w)
                 (threads w ++ [(split ";" files_str, templ)]))).
Proof.
  unfold _start_batch. split.
  - intros Hbad.
    destruct (String.eqb_spec files_str EmptyString) as [_|Hne];
      [eexists; reflexivity|].
    destruct (first_missing path_exists (split ";" files_str)) as [f|] eqn:Ef;
      [eexists; reflexivity|].
    destruct (path_exists templ) eqn:Et; [|eexists; reflexivity].
    exfalso. destruct Hbad as [H|[(f & Hf & Hx)|H]].
    + contradiction.
    + rewrite first_missing_none in Ef. rewrite (Ef f Hf) in Hx. discriminate.
    + discriminate.
  - intros Hne Hall Ht.
    destruct (String.eqb_spec files_str EmptyString) as [|_]; [contradiction|].
    apply first_missing_none in Hall. rewrite Hall, Ht. reflexivity.
Qed.

End BatchFacts.

Lemma start_batch_guard_witness :
  (exists message,
     runs (_start_batch example_exists "C:/data/run1.xlsx;C:/data/run2.xlsx"
                        "C:/data/cv.otpu") world0 tt
          (mkWorld 42 [] [] [ShowError "Error" message] [])) /\
  runs (_start_batch example_exists "C:/data/run1.xlsx" "C:/data/cv.otpu")
       world0 tt
       (mkWorld 0 [] [] [] [(["C:/data/run1.xlsx"], "C:/data/cv.otpu")]).
Proof.
  split.
  - apply (proj1 (@start_batch_guard example_exists
                    "C:/data/run1.xlsx;C:/data/run2.xlsx" "C:/data/cv.otpu"
                    world0)).
    right; left. exists "C:/data/run2.xlsx".
    split; [right; left; reflexivity | reflexivity].
  - apply (proj2 (@start_batch_guard example_exists
                    "C:/data/run1.xlsx" "C:/data/cv.otpu" world0)).
    + discriminate.
    + intros f [<-|[]]. reflexivity.
    + reflexivity.
Defined.

(** ** The exception hook *)

(** C9: for every uncaught exception (any type, value and traceback) and
    whatever the automation target does on [op.exit()] (return or raise),
    the hook first attempts the shutdown, swallows its error if it raises,
    and then runs the default handler on the original exception, whose
    outcome is the hook's. *)
Theorem hook_always_delegates (origin : call -> M unit)
        (ExcType ExcValue Traceback : Type)
        (sys_excepthook : ExcType -> ExcValue -> Traceback -> M unit)
        (exctype : ExcType) (value : ExcValue) (traceback : Traceback)
        (w : World) :
  origin_shutdown_exception_hook origin sys_excepthook exctype value traceback w
  = sys_excepthook exctype value traceback (snd (origin OpExit w)).
Proof.
  unfold origin_shutdown_exception_hook, bind, try_pass.
  destruct (origin OpExit w) as [[[]|e] w1]; reflexivity.
Qed.

Example hook_on_failing_target :
  origin_shutdown_exception_hook failing_origin showing_excepthook
    "ValueError" "bad cell" "traceback" world0
  = (Ok tt, mkWorld 42 [] [] [ShowError "ValueError" "bad cell"] []).
Proof. reflexivity. Qed.

Example hook_on_mock_target :
  origin_shutdown_exception_hook mock_origin showing_excepthook
    "ValueError" "bad cell" "traceback" world0
  = (Ok tt, mkWorld 42 [OpExit] [] [ShowError "ValueError" "bad cell"] []).
Proof. reflexivity. Qed.

(** ** The worker *)

(** The worker never lets an exception of a file escape: the batch ends
    with a dialog, the summary or the error message. *)
Lemma worker_batch_never_raises (num : Type)
      (parse_text : string -> option num) (num_of_bool : bool -> num)
      (repr : num -> string)
      (read_record_sheet : string -> result (DataFrame num))
      (basename abspath : string -> string) (oext : bool)
      (origin : call -> M unit) (files : list string) (templ : string)
      (w : World) :
  exists w',
    runs (_worker_batch parse_text num_of_bool repr read_record_sheet basename abspath
                        oext origin files templ) w tt w'.
Proof.
  unfold runs, _worker_batch, try_except.
  match goal with
  | |- context [match ?c w with _ => _ end] =>
      destruct (c w) as [[[]|e] w1]
  end; eexists; reflexivity.
Qed.

Example worker_on_missing_file :
  _worker_batch example_parse example_num_of_bool example_repr example_read example_basename
                example_abspath true mock_origin ["C:/data/run9.xlsx"]
                "C:/data/cv.otpu" world0
  = (Ok tt, mkWorld 0 [] [] [ShowError "Error" "No such file"] []).
Proof. reflexivity. Qed.

(** * Further properties *)

(** ** The file list: joining and splitting *)

Lemma split_not_nil (c : ascii) (s : string) : split c s <> [].
Proof.
  destruct s as [|a r]; simpl; [discriminate|].
  destruct (Ascii.eqb a c); [discriminate|].
  destruct (split c r); discriminate.
Qed.

Lemma split_no_sep (c : ascii) (s : string) :
  count_char c s = 0 -> split c s = [s].
Proof.
  induction s as [|a r IH]; simpl; [reflexivity|].
  destruct (Ascii.eqb a c); [discriminate|].
  intros H. now rewrite IH.
Qed.

Lemma split_app_sep (c : ascii) (p r : string) :
  count_char c p = 0 -> split c (p ++ String c r) = p :: split c r.
Proof.
  induction p as [|a p IH]; simpl.
  - now rewrite Ascii.eqb_refl.
  - destruct (Ascii.eqb a c); [discriminate|].
    intros H. now rewrite IH.
Qed.

Lemma length_split (c : ascii) (s : string) :
  length (split c s) = S (count_char c s).
Proof.
  induction s as [|a r IH]; simpl; [reflexivity|].
  destruct (Ascii.eqb a c); simpl; [now rewrite IH|].
  destruct (split c r) as [|h t] eqn:E; [now apply split_not_nil in E|].
  simpl in *. exact IH.
Qed.

Lemma count_char_app (c : ascii) (s t : string) :
  count_char c (s ++ t) = count_char c s + count_char c t.
Proof.
  induction s as [|a r IH]; simpl; [reflexivity|]. rewrite IH. lia.
Qed.

(** X1: splitting what [_browse_files] joined gives the chosen paths back,
    provided no path holds a semicolon. *)
Theorem split_join_roundtrip (paths : list string) :
  paths <> [] ->
  Forall (fun p => count_char ";" p = 0) paths ->
  split ";" (join ";" paths) = paths.
Proof.
  intros Hne Hall. induction Hall as [|p ps Hp Hps IH]; [contradiction|].
  destruct ps as [|q ps]; [now apply split_no_sep|].
  change (join ";" (p :: q :: ps)) with (p ++ String ";" (join ";" (q :: ps))).
  rewrite split_app_sep by exact Hp.
  f_equal. apply IH. discriminate.
Qed.

Lemma split_join_roundtrip_witness :
  split ";" (join ";" ["C:/data/run1.xlsx"; "C:/data/run2.xlsx"])
  = ["C:/data/run1.xlsx"; "C:/data/run2.xlsx"].
Proof.
  apply (@split_join_roundtrip ["C:/data/run1.xlsx"; "C:/data/run2.xlsx"]).
  - discriminate.
  - repeat constructor.
Defined.

(** X2: the batch sees one file per chosen path plus one per semicolon inside
    the chosen paths: a path that holds a semicolon is cut in pieces. *)
Theorem split_join_count (paths : list string) :
  paths <> [] ->
  length (split ";" (join ";" paths))
  = length paths + list_sum (map (count_char ";") paths).
Proof.
  intros Hne. rewrite length_split.
  induction paths as [|p ps IH]; [contradiction|].
  destruct ps as [|q ps]; [simpl; lia|].
  change (join ";" (p :: q :: ps)) with (p ++ String ";" (join ";" (q :: ps))).
  rewrite count_char_app. cbn [count_char]. rewrite Ascii.eqb_refl.
  specialize (IH ltac:(discriminate)).
  unfold list_sum in *. cbn [length map fold_right] in *. lia.
Qed.

Lemma split_join_count_witness :
  length (split ";" (join ";" ["C:/data/a;b.xlsx"; "C:/data/run2.xlsx"])) = 3.
Proof.
  exact (@split_join_count ["C:/data/a;b.xlsx"; "C:/data/run2.xlsx"]
           ltac:(discriminate)).
Defined.

Lemma join_not_empty (sep : string) (paths : list string) :
  paths <> [] ->
  Forall (fun p => p <> EmptyString) paths ->
  join sep paths <> EmptyString.
Proof.
  intros Hne Hall. destruct Hall as [|p ps Hp _]; [contradiction|].
  destruct p as [|a p]; [contradiction|].
  destruct ps; simpl; discriminate.
Qed.

(** ** The window: from the pickers to the worker *)

Section WindowFacts.

Variable path_exists : string -> bool.

Lemma first_missing_at (before after : list string) (f : string) :
  (forall g, In g before -> path_exists g = true) ->
  path_exists f = false ->
  first_missing path_exists (before ++ f :: after) = Some f.
Proof.
  intros Hb Hf. induction before as [|g before IH]; simpl.
  - now rewrite Hf.
  - rewrite (Hb g) by now left. apply IH. intros; apply Hb; now right.
Qed.

(** X3: choosing existing files (none with a semicolon or an empty name) and
    an existing template in the pickers, then starting the batch, resets
    the bar and starts one worker on exactly the chosen files and the
    chosen template, whatever the entries held before. *)
Theorem browse_then_start (chosen : list string)
        (templ old_files old_templ : string) (w : World) :
  chosen <> [] ->
  Forall (fun p => count_char ";" p = 0) chosen ->
  Forall (fun p => p <> EmptyString) chosen ->
  (forall f, In f chosen -> path_exists f = true) ->
  templ <> EmptyString ->
  path_exists templ = true ->
  runs (_start_batch path_exists (_browse_files chosen old_files)
                     (_browse templ old_templ)) w tt
       (mkWorld 0 (origin_log w) (disk w) (dialogs w)
                (threads w ++ [(chosen, templ)])).
Proof.
  intros Hne Hsemi Hnames Hall Htne Ht.
  assert (Hfiles : _browse_files chosen old_files = join ";" chosen)
    by (destruct chosen; [contradiction | reflexivity]).
  assert (Htempl : _browse templ old_templ = templ).
  { unfold _browse. now destruct (String.eqb_spec templ EmptyString). }
  rewrite Hfiles, Htempl. unfold _start_batch.
  destruct (String.eqb_spec (join ";" chosen) EmptyString) as [E|_];
    [now apply join_not_empty in E|].
  rewrite split_join_roundtrip by assumption.
  apply first_missing_none in Hall. rewrite Hall, Ht. reflexivity.
Qed.

(** X4: the error of a refused start, by priority: an empty file list first;
    then the first listed file that does not exist, in list order, whether
    or not the template exists; the template only when every listed file
    exists. *)
Theorem start_batch_messages (files_str templ : string) (w : World) :
  let refused message :=
    runs (_start_batch path_exists files_str templ) w tt
         (mkWorld (progress_value w) (origin_log w) (disk w)
                  (dialogs w ++ [ShowError "Error" message]) (threads w)) in
  (files_str = EmptyString -> refused "Select at least one Excel file.") /\
  (forall before f after,
     files_str <> EmptyString ->
     split ";" files_str = (before ++ f :: after)%list ->
     (forall g, In g before -> path_exists g = true) ->
     path_exists f = false ->
     refused ("File not found: " ++ f)) /\
  (files_str <> EmptyString ->
   (forall f, In f (split ";" files_str) -> path_exists f = true) ->
   path_exists templ = false ->
   refused "Select a valid template.").
Proof.
  intros refused. subst refused. unfold _start_batch. repeat split.
  - intros ->. reflexivity.
  - intros before f after Hne Hsplit Hb Hf.
    destruct (String.eqb_spec files_str EmptyString); [contradiction|].
    rewrite Hsplit, (first_missing_at _ _ Hb Hf). reflexivity.
  - intros Hne Hall Ht.
    destruct (String.eqb_spec files_str EmptyString); [contradiction|].
    apply first_missing_none in Hall. rewrite Hall, Ht. reflexivity.
Qed.

End WindowFacts.

Lemma browse_then_start_witness :
  runs (_start_batch example_exists
          (_browse_files ["C:/data/run1.xlsx"] "old text")
          (_browse "C:/data/cv.otpu" EmptyString)) world0 tt
       (mkWorld 0 [] [] [] [(["C:/data/run1.xlsx"], "C:/data/cv.otpu")]).
Proof.
  apply (@browse_then_start example_exists ["C:/data/run1.xlsx"]
           "C:/data/cv.otpu" "old text" EmptyString world0).
  - discriminate.
  - repeat constructor.
  - repeat constructor. discriminate.
  - intros f [<-|[]]. reflexivity.
  - discriminate.
  - reflexivity.
Defined.

Lemma start_batch_messages_witness :
  runs (_start_batch example_exists
          "C:/data/run1.xlsx;C:/data/run2.xlsx;C:/data/run3.xlsx"
          "C:/data/missing.otpu") world0 tt
       (mkWorld 42 [] [] [ShowError "Error" "File not found: C:/data/run2.xlsx"]
                []).
Proof.
  apply (proj1 (proj2 (@start_batch_messages example_exists
           "C:/data/run1.xlsx;C:/data/run2.xlsx;C:/data/run3.xlsx"
           "C:/data/missing.otpu" world0))
           ["C:/data/run1.xlsx"] "C:/data/run2.xlsx" ["C:/data/run3.xlsx"]).
  - discriminate.
  - reflexivity.
  - intros g [<-|[]]. reflexivity.
  - reflexivity.
Defined.

(** ** The reshaper: errors, names and shape *)

Section ReshaperShape.

Variable num : Type.
Variable parse_text : string -> option num.
Variable num_of_bool : bool -> num.
Variable repr : num -> string.

Local Abbreviation coerced := (coerce_col parse_text num_of_bool).
Local Abbreviation pairs := (cycle_pair parse_text num_of_bool).

Lemma has_row0 (labels : list nat) :
  existsb (Nat.eqb 0) labels = true <-> In 0 labels.
Proof.
  rewrite existsb_exists. split.
  - intros (l & Hl & E). apply Nat.eqb_eq in E. now subst.
  - intros H. exists 0. now split.
Qed.

(** X5: the reshaper fails exactly on the sheets that have no row labelled 0,
    and then with [KeyError]: no column count and no cell content makes
    it raise. *)
Theorem reshape_fails_iff_no_row0 (parsed : DataFrame num) :
  ((exists wide, reshape parse_text num_of_bool parsed = Ok wide) <-> In 0 (index parsed)) /\
  (forall e, reshape parse_text num_of_bool parsed = Raise e ->
             e = KeyError "[0] not found in axis" /\ ~ In 0 (index parsed)).
Proof.
  unfold reshape, clean, drop_index.
  destruct (existsb (Nat.eqb 0) (index parsed)) eqn:E; cbn [rbind].
  - apply has_row0 in E. rewrite build_wide_ok. split.
    + split; [intros _; exact E | intros _; eexists; reflexivity].
    + intros e H. discriminate H.
  - assert (Hno : ~ In 0 (index parsed)).
    { intros H. apply has_row0 in H. rewrite H in E. discriminate. }
    split.
    + split; [intros (wide & H); discriminate H | intros H; contradiction].
    + intros e [= <-]. now split.
Qed.



Lemma pair_column_length (cols : list (list (cell num))) (n k : nat) :
  Forall (fun c => length c = n) cols ->
  k * 3 <= length cols ->
  Forall (fun c => length (snd c) = n) (flat_map (pairs cols) (seq 0 k)).
Proof.
  intros Hcols Hk. apply Forall_forall. intros c Hc.
  apply in_flat_map in Hc as (i & Hi & Hc). apply in_seq in Hi.
  rewrite Forall_forall in Hcols.
  destruct Hc as [<-|[<-|[]]]; cbn [snd]; unfold coerce_col;
    rewrite length_map; apply Hcols, nth_In; lia.
Qed.

(** X7: for a parsed sheet with rows 0..n and at least one cycle, the table
    has n rows in every column, and the CSV holds a header and n records,
    each of two fields per cycle. *)
Theorem csv_shape (parsed : DataFrame num) (n : nat) :
  wf_frame parsed = true ->
  index parsed = seq 0 (S n) ->
  1 <= cycles_of parsed ->
  exists wide,
    reshape parse_text num_of_bool parsed = Ok wide /\
    windex wide = seq 0 n /\
    Forall (fun c => length (snd c) = n) (wcols wide) /\
    length (to_csv repr false wide) = S n /\
    Forall (fun record => length record = 2 * cycles_of parsed)
           (to_csv repr false wide).
Proof.
  intros Hwf Hidx Hk.
  rewrite (@reshape_range _ parse_text num_of_bool _ _ Hwf Hidx), build_wide_ok.
  eexists. split; [reflexivity|].
  unfold cycles_of in *. cbn [columns index]. rewrite length_map.
  set (k := length (columns parsed) / 3) in *.
  set (cols := map (@tl _) (columns parsed)).
  assert (Hlen : length (flat_map (pairs cols) (seq 0 k)) = 2 * k)
    by apply flat_pair_length.
  assert (Hcols : Forall (fun c => length c = n) cols).
  { apply Forall_forall. intros c Hc. subst cols.
    apply in_map_iff in Hc as (c0 & <- & Hc0).
    unfold wf_frame in Hwf. rewrite forallb_forall in Hwf.
    specialize (Hwf c0 Hc0). apply Nat.eqb_eq in Hwf.
    rewrite Hidx, length_seq in Hwf. destruct c0; simpl in *; lia. }
  split; [|split; [|split]].
  - unfold DataFrame_of_dict; cbn [windex].
    destruct (flat_map (pairs cols) (seq 0 k)); [simpl in Hlen; lia | reflexivity].
  - cbn [wcols DataFrame_of_dict]. apply pair_column_length; [exact Hcols|].
    subst cols k. rewrite length_map.
    pose proof (Nat.div_mod_eq (length (columns parsed)) 3). lia.
  - unfold to_csv. cbn [length]. rewrite length_map, length_combine.
    unfold DataFrame_of_dict; cbn [windex].
    destruct (flat_map (pairs cols) (seq 0 k)); [simpl in Hlen; lia|].
    rewrite !length_seq. lia.
  - rewrite <- Hlen.
    exact (to_csv_no_index repr
             (DataFrame_of_dict (seq 0 n) (flat_map (pairs cols) (seq 0 k)))).
Qed.

End ReshaperShape.

Lemma reshape_fails_iff_no_row0_witness :
  exists wide, reshape example_parse example_num_of_bool example_sheet = Ok wide.
Proof.
  apply (proj2 (proj1 (@reshape_fails_iff_no_row0 Z example_parse example_num_of_bool example_sheet))).
  left. reflexivity.
Defined.


Lemma csv_shape_witness :
  exists wide,
    reshape example_parse example_num_of_bool example_sheet = Ok wide /\
    length (to_csv example_repr false wide) = 3.
Proof.
  destruct (@csv_shape Z example_parse example_num_of_bool example_repr example_sheet 2
              eq_refl eq_refl (le_S 1 1 (le_n 1)))
    as (wide & Hw & _ & _ & Hl & _).
  exists wide. split; [exact Hw | exact Hl].
Defined.

(** ** Output paths and the input *)

Lemma append_inj_l (s t u : string) : s ++ t = s ++ u -> t = u.
Proof.
  induction s as [|a s IH]; simpl; intros H; [exact H|].
  injection H as H. now apply IH.
Qed.

Local Open Scope Z_scope.

Lemma rfind_drop (c : ascii) (s : string) :
  0 <= rfind c s -> exists r, drop (Z.to_nat (rfind c s)) s = String c r.
Proof.
  induction s as [|a s IH]; cbn [rfind]; [lia|].
  destruct (Z.leb_spec 0 (rfind c s)) as [Hj|Hj].
  - intros _. destruct (IH Hj) as (r & Hr). exists r.
    replace (Z.to_nat (rfind c s + 1)) with (S (Z.to_nat (rfind c s))) by lia.
    exact Hr.
  - destruct (Ascii.eqb_spec a c) as [->|_]; [|lia].
    intros _. exists s. reflexivity.
Qed.

Local Close Scope Z_scope.

(** The extension [splitext] cuts off is empty or starts with the dot. *)
Lemma splitext_ext (p : string) :
  snd (splitext p) = EmptyString \/
  exists r, snd (splitext p) = String extsep r.
Proof.
  destruct (splitext_cases p) as [E|[Hlt E]]; rewrite E; cbn [snd];
    [now left | right].
  apply rfind_drop. pose proof (sepIndex_range p). lia.
Qed.

(** X8: the CSV never lands on the input spreadsheet, whatever its name, and
    the project path is the input path only for an input that itself ends
    in the project extension. *)
Theorem outputs_never_input (xlsx_path : string) :
  csv_path_of xlsx_path <> xlsx_path /\
  (fst (splitext xlsx_path) ++ ".opju" = xlsx_path <->
   snd (splitext xlsx_path) = ".opju").
Proof.
  pose proof (splitext_join xlsx_path) as Hj. split.
  - unfold csv_path_of. intros H. rewrite <- Hj in H at 2.
    apply append_inj_l in H.
    destruct (splitext_ext xlsx_path) as [E|(r & E)]; rewrite E in H;
      discriminate H.
  - split; intros H.
    + rewrite <- Hj in H at 2. apply append_inj_l in H. now symmetry.
    + rewrite <- H. exact Hj.
Qed.

(** ** Failures inside [process_file] *)

Lemma raises_bind_l {A B} (c : M A) (k : A -> M B) w e w1 :
  raises c w e w1 -> raises (bind c k) w e w1.
Proof. unfold raises, bind. now intros ->. Qed.

Lemma raises_bind_r {A B} (c : M A) (k : A -> M B) w a w1 e w2 :
  runs c w a w1 -> raises (k a) w1 e w2 -> raises (bind c k) w e w2.
Proof. unfold runs, raises, bind. intros -> H. exact H. Qed.

Lemma runs_try_pass_raise (c : M unit) w e w1 :
  raises c w e w1 -> runs (try_pass c) w tt w1.
Proof. unfold raises, runs, try_pass. now intros ->. Qed.

Lemma runs_fail_on (bad : call -> bool) (e : exn) (c : call) (w : World) :
  bad c = false -> runs (fail_on bad e c) w tt (log_calls [c] w).
Proof. unfold fail_on. intros ->. apply runs_mock. Qed.

Lemma raises_fail_on (bad : call -> bool) (e : exn) (c : call) (w : World) :
  bad c = true -> raises (fail_on bad e c) w e w.
Proof. unfold fail_on. now intros ->. Qed.

Lemma filter_all {A} (f : A -> bool) (l : list A) :
  forallb f l = true -> filter f l = l.
Proof.
  induction l as [|a l IH]; simpl; [reflexivity|].
  intros H. apply andb_true_iff in H as [Ha Hl]. now rewrite Ha, IH.
Qed.

Lemma filter_none {A} (f : A -> bool) (l : list A) :
  forallb (fun a => negb (f a)) l = true -> filter f l = [].
Proof.
  induction l as [|a l IH]; simpl; [reflexivity|].
  intros H. apply andb_true_iff in H as [Ha Hl].
  apply negb_true_iff in Ha. now rewrite Ha, IH.
Qed.

Lemma forallb_flat_map {A B} (f : B -> bool) (g : A -> list B) (l : list A) :
  (forall a, forallb f (g a) = true) -> forallb f (flat_map g l) = true.
Proof.
  intros H. induction l as [|a l IH]; simpl; [reflexivity|].
  now rewrite forallb_app, H, IH.
Qed.

Section ProcessFileFailures.

Variable num : Type.
Variable parse_text : string -> option num.
Variable num_of_bool : bool -> num.
Variable repr : num -> string.
Variable read_record_sheet : string -> result (DataFrame num).
Variable basename : string -> string.
Variable abspath : string -> string.
Variable oext : bool.

Local Abbreviation run_on origin :=
  (process_file parse_text num_of_bool repr read_record_sheet basename abspath oext origin).

Lemma process_file_raises_early
      (origin : call -> M unit) (progress_callback : option (Z -> M unit))
      (xlsx_path template_path : string) (e : exn) (w : World) :
  read_record_sheet xlsx_path = Raise e \/
  (exists parsed, read_record_sheet xlsx_path = Ok parsed /\
                  clean parsed = Raise e) ->
  raises (run_on origin xlsx_path template_path progress_callback) w e w.
Proof.
  unfold raises, process_file, bind, lift.
  intros [H|(parsed & H & Hc)]; rewrite H; [reflexivity|].
  now rewrite Hc.
Qed.

(** X9: when the record sheet cannot be read, or has no row 0 to remove,
    [process_file] raises that exception before any effect: no CSV is
    written, no call reaches the target and the bar is not touched,
    whatever the target and the callback. *)
Theorem process_file_fails_before_effects
        (origin : call -> M unit) (progress_callback : option (Z -> M unit))
        (xlsx_path template_path : string) (e : exn) (w : World) :
  read_record_sheet xlsx_path = Raise e \/
  (exists parsed, read_record_sheet xlsx_path = Ok parsed /\
                  clean parsed = Raise e) ->
  raises (run_on origin xlsx_path template_path progress_callback) w e w.
Proof. apply process_file_raises_early. Qed.

Ltac step_on :=
  eapply runs_bind;
  [ first [ apply runs_fail_on; reflexivity
          | apply runs_write_file
          | apply runs_try_pass; apply runs_fail_on; reflexivity
          | eapply runs_try_pass_raise; apply raises_fail_on; reflexivity
          | apply axis_loop_runs
          | apply plot_loop_runs; lia
          | apply runs_lift; eassumption
          | apply runs_lift; apply build_wide_ok ] | ].

Lemma runs_launch (bad : call -> bool) (e : exn) (w : World) :
  bad OpNew = false -> bad (OpSetShow true) = false ->
  runs (if oext
        then fail_on bad e OpNew ;; fail_on bad e (OpSetShow true)
        else ret tt) w tt
       (log_calls (if oext then [OpNew; OpSetShow true] else []) w).
Proof.
  intros H1 H2. destruct oext.
  - eapply runs_eq.
    + eapply runs_bind; apply runs_fail_on; assumption.
    + unfold log_calls. now rewrite advance_advance.
  - rewrite log_calls_nil. apply runs_ret.
Qed.

(** X10: a failure to restore the main window does not abort the file: on a
    target that raises on every [Execute] command and accepts the other
    calls, [process_file] returns as on the mock target; only the
    [Execute] call is missing from what the target accepted. *)
Theorem window_restore_failure_swallowed (xlsx_path template_path : string)
        (parsed raw : DataFrame num) (e : exn) (w : World) :
  read_record_sheet xlsx_path = Ok parsed ->
  clean parsed = Ok raw ->
  runs (run_on (fail_on is_execute e) xlsx_path template_path
               (Some update_progress)) w tt
    (mkWorld
       (bar_after (cycles_of raw) (cycles_of raw) (progress_value w))
       (origin_log w
        ++ filter (fun c => negb (is_execute c))
             (driver_calls oext basename xlsx_path template_path
                (csv_path_of xlsx_path) (proj_path_of abspath xlsx_path)
                (cycles_of raw)))
       (disk w
        ++ [(csv_path_of xlsx_path,
             to_csv repr false
               (DataFrame_of_dict (index raw)
                  (flat_map (cycle_pair parse_text num_of_bool (columns raw))
                            (seq 0 (cycles_of raw)))))])
       (dialogs w) (threads w)).
Proof.
  intros Hread Hclean. unfold process_file, plot_cycles. cbv zeta.
  eapply runs_eq.
  - do 4 step_on.
    eapply runs_bind; [apply runs_launch; reflexivity|].
    do 16 step_on. apply runs_fail_on; reflexivity.
  - unfold log_calls. rewrite !advance_advance.
    unfold advance; cbn [progress_value origin_log disk dialogs threads].
    f_equal. f_equal. unfold driver_calls.
    rewrite !filter_app.
    rewrite (filter_all _ (axis_calls (cycles_of raw)))
      by (apply forallb_flat_map; reflexivity).
    rewrite (filter_all _ (plot_calls (cycles_of raw)))
      by (apply forallb_flat_map; reflexivity).
    destruct oext; cbn [filter is_execute negb app];
      rewrite <- ?app_assoc; reflexivity.
Qed.

(** X11: a failure to create the graph from the template aborts the file: on a
    target that raises [e] on [NewGraph], [process_file] raises [e] after
    the CSV is written and the worksheet is set up; no plot is added,
    nothing is saved and the bar is not touched. *)
Theorem template_failure_propagates (xlsx_path template_path : string)
        (progress_callback : option (Z -> M unit))
        (parsed raw : DataFrame num) (e : exn) (w : World) :
  read_record_sheet xlsx_path = Ok parsed ->
  clean parsed = Ok raw ->
  raises (run_on (fail_on is_new_graph e) xlsx_path template_path
                 progress_callback) w e
    (mkWorld
       (progress_value w)
       (origin_log w
        ++ (if oext then [OpNew; OpSetShow true] else [])
        ++ [Dispatch "Origin.ApplicationSI"; SetVisible true; Execute "win -r";
            NewSheet; FromFile (csv_path_of xlsx_path) false]
        ++ axis_calls (cycles_of raw))
       (disk w
        ++ [(csv_path_of xlsx_path,
             to_csv repr false
               (DataFrame_of_dict (index raw)
                  (flat_map (cycle_pair parse_text num_of_bool (columns raw))
                            (seq 0 (cycles_of raw)))))])
       (dialogs w) (threads w)).
Proof.
  intros Hread Hclean. unfold process_file. cbv zeta.
  do 4 (eapply raises_bind_r;
        [ first [ apply runs_write_file
                | apply runs_lift; eassumption
                | apply runs_lift; apply build_wide_ok ] | ]).
  eapply raises_bind_r; [apply runs_launch; reflexivity|].
  do 6 (eapply raises_bind_r;
        [ first [ apply runs_fail_on; reflexivity
                | apply runs_try_pass; apply runs_fail_on; reflexivity
                | apply axis_loop_runs ] | ]).
  apply raises_bind_l.
  unfold raises, fail_on; cbn [is_new_graph].
  unfold log_calls. rewrite !advance_advance.
  unfold advance; cbn [progress_value origin_log disk dialogs threads].
  f_equal; f_equal; rewrite <- ?app_assoc; reflexivity.
Qed.

End ProcessFileFailures.

Lemma process_file_fails_before_effects_witness :
  raises (process_file example_parse example_num_of_bool example_repr example_read
                       example_basename example_abspath true mock_origin
                       "C:/data/run9.xlsx" "C:/data/cv.otpu"
                       (Some update_progress))
         world0 (OtherError "No such file") world0.
Proof.
  apply (@process_file_fails_before_effects Z example_parse example_num_of_bool example_repr
           example_read example_basename example_abspath true mock_origin
           (Some update_progress) "C:/data/run9.xlsx" "C:/data/cv.otpu"
           (OtherError "No such file") world0).
  left. reflexivity.
Defined.

Lemma window_restore_failure_swallowed_witness :
  exists w',
    runs (process_file example_parse example_num_of_bool example_repr example_read
                       example_basename example_abspath true
                       (fail_on is_execute (OtherError "no window"))
                       "C:/data/run1.xlsx" "C:/data/cv.otpu"
                       (Some update_progress)) world_reset tt w' /\
    progress_value w' = 100%Z.
Proof.
  eexists. split.
  - exact (@window_restore_failure_swallowed Z example_parse example_num_of_bool example_repr
             example_read example_basename example_abspath true
             "C:/data/run1.xlsx" "C:/data/cv.otpu" example_sheet
             {| index := [0; 1]; columns := map (@tl _) (columns example_sheet) |}
             (OtherError "no window") world_reset eq_refl eq_refl).
  - reflexivity.
Defined.

Lemma template_failure_propagates_witness :
  exists w',
    raises (process_file example_parse example_num_of_bool example_repr example_read
                         example_basename example_abspath false
                         (fail_on is_new_graph (OtherError "bad template"))
                         "C:/data/run1.xlsx" "C:/data/cv.otpu"
                         (Some update_progress))
           world0 (OtherError "bad template") w' /\
    map fst (disk w') = ["C:/data/run1_plotdata.csv"] /\
    filter is_save (origin_log w') = [] /\
    progress_value w' = 42%Z.
Proof.
  eexists. split.
  - exact (@template_failure_propagates Z example_parse example_num_of_bool example_repr
             example_read example_basename example_abspath false
             "C:/data/run1.xlsx" "C:/data/cv.otpu" (Some update_progress)
             example_sheet
             {| index := [0; 1]; columns := map (@tl _) (columns example_sheet) |}
             (OtherError "bad template") world0 eq_refl eq_refl).
  - repeat split.
Defined.

(** ** Axis roles, plots and the CSV header *)

Lemma axis_calls_by_column (k : nat) :
  axis_calls k
  = map (fun c => ColsAxis (if Nat.even c then "X" else "Y") c) (seq 0 (2 * k)).
Proof.
  unfold axis_calls.
  assert (H : forall a,
             flat_map (fun i => [ColsAxis "X" (i * 2); ColsAxis "Y" (i * 2 + 1)])
                      (seq a k)
             = map (fun c => ColsAxis (if Nat.even c then "X" else "Y") c)
                   (seq (2 * a) (2 * k))).
  { induction k as [|k IH]; intros a; [reflexivity|].
    replace (2 * S k) with (S (S (2 * k))) by lia.
    cbn [seq flat_map map app]. rewrite IH.
    replace (2 * S a) with (S (S (2 * a))) by lia.
    replace (a * 2 + 1) with (S (2 * a)) by lia.
    replace (a * 2) with (2 * a) by lia.
    rewrite Nat.even_succ, <- Nat.negb_even, Nat.even_even. reflexivity. }
  apply (H 0).
Qed.

Lemma driver_axis_calls (oext : bool) (basename : string -> string)
      (xlsx_path template_path csv_path proj_path : string) (k : nat) :
  filter is_cols_axis
    (driver_calls oext basename xlsx_path template_path csv_path proj_path k)
  = axis_calls k.
Proof.
  unfold driver_calls. rewrite !filter_app.
  rewrite (filter_all _ (axis_calls k)) by (apply forallb_flat_map; reflexivity).
  rewrite (filter_none _ (plot_calls k)) by (apply forallb_flat_map; reflexivity).
  destruct oext; cbn [filter is_cols_axis app]; now rewrite app_nil_r.
Qed.

Lemma driver_save_calls (oext : bool) (basename : string -> string)
      (xlsx_path template_path csv_path proj_path : string) (k : nat) :
  filter is_save
    (driver_calls oext basename xlsx_path template_path csv_path proj_path k)
  = [Save proj_path].
Proof.
  unfold driver_calls. rewrite !filter_app.
  rewrite (filter_none _ (axis_calls k)) by (apply forallb_flat_map; reflexivity).
  rewrite (filter_none _ (plot_calls k)) by (apply forallb_flat_map; reflexivity).
  destruct oext; reflexivity.
Qed.

Section DriverAndTable.

Variable num : Type.
Variable parse_text : string -> option num.
Variable num_of_bool : bool -> num.
Variable repr : num -> string.
Variable read_record_sheet : string -> result (DataFrame num).
Variable basename : string -> string.
Variable abspath : string -> string.
Variable oext : bool.

Local Abbreviation run_file :=
  (process_file parse_text num_of_bool repr read_record_sheet basename abspath oext
                mock_origin).

(** X12: [process_file] gives an axis role to every column of the CSV it
    wrote, in column order: X to the even columns, Y to the odd ones, and
    to no other column. *)
Theorem axis_roles_cover_columns (xlsx_path template_path : string)
        (parsed raw : DataFrame num) (w : World) :
  read_record_sheet xlsx_path = Ok parsed ->
  clean parsed = Ok raw ->
  exists wide w',
    build_wide parse_text num_of_bool raw = Ok wide /\
    runs (run_file xlsx_path template_path (Some update_progress)) w tt w' /\
    filter is_cols_axis (origin_log w')
    = (filter is_cols_axis (origin_log w)
       ++ map (fun c => ColsAxis (if Nat.even c then "X" else "Y") c)
              (seq 0 (length (wcols wide))))%list.
Proof.
  intros Hread Hclean. eexists. eexists.
  split; [apply build_wide_ok|].
  split; [eapply process_file_runs; eassumption|].
  cbn [origin_log wcols DataFrame_of_dict].
  rewrite filter_app, driver_axis_calls, flat_pair_length.
  now rewrite axis_calls_by_column.
Qed.

(** X13: every plot [process_file] adds reads columns that exist in the CSV it
    wrote: its X column is headed [Cyclen_SpeCap] and its Y column
    [Cyclen_Voltage] for one and the same cycle n. *)
Theorem plots_match_header (xlsx_path template_path : string)
        (parsed raw : DataFrame num) (w : World) :
  read_record_sheet xlsx_path = Ok parsed ->
  clean parsed = Ok raw ->
  exists wide w' calls,
    build_wide parse_text num_of_bool raw = Ok wide /\
    runs (run_file xlsx_path template_path (Some update_progress)) w tt w' /\
    origin_log w' = (origin_log w ++ calls)%list /\
    disk w' = (disk w ++ [(csv_path_of xlsx_path, to_csv repr false wide)])%list /\
    forall coly colx, In (AddPlot coly colx) calls ->
      exists i,
        nth_error (hd [] (to_csv repr false wide)) colx = Some (spe_name i) /\
        nth_error (hd [] (to_csv repr false wide)) coly = Some (vol_name i).
Proof.
  intros Hread Hclean. eexists. eexists. eexists.
  split; [apply build_wide_ok|].
  split; [eapply process_file_runs; eassumption|].
  cbn [origin_log disk]. split; [reflexivity|]. split; [reflexivity|].
  intros coly colx Hin.
  assert (Hf : In (AddPlot coly colx)
                  (filter is_add_plot
                     (driver_calls oext basename xlsx_path template_path
                        (csv_path_of xlsx_path) (proj_path_of abspath xlsx_path)
                        (cycles_of raw))))
    by (apply filter_In; now split).
  rewrite driver_add_plot_calls in Hf.
  apply in_map_iff in Hf as (n & [= <- <-] & Hn). apply in_seq in Hn.
  exists (n - 1).
  destruct (@flat_pair_nth _ parse_text num_of_bool (columns raw)
              (cycles_of raw) (n - 1))
    as [Hs Hv]; [lia|].
  unfold to_csv; cbn [hd wcols DataFrame_of_dict].
  change (n - 1 + (n - 1 + 0)) with (2 * (n - 1)).
  rewrite !nth_error_map, Hs, Hv. now split.
Qed.

End DriverAndTable.

Lemma axis_roles_cover_columns_witness :
  exists w',
    runs (process_file example_parse example_num_of_bool example_repr example_read
                       example_basename example_abspath true mock_origin
                       "C:/data/run1.xlsx" "C:/data/cv.otpu"
                       (Some update_progress)) world0 tt w' /\
    filter is_cols_axis (origin_log w')
    = [ColsAxis "X" 0; ColsAxis "Y" 1; ColsAxis "X" 2; ColsAxis "Y" 3].
Proof.
  destruct (@axis_roles_cover_columns Z example_parse example_num_of_bool example_repr
              example_read example_basename example_abspath true
              "C:/data/run1.xlsx" "C:/data/cv.otpu" example_sheet
              {| index := [0; 1]; columns := map (@tl _) (columns example_sheet) |}
              world0 eq_refl eq_refl)
    as (wide & w' & Hb & Hr & Ha).
  exists w'. split; [exact Hr|].
  injection Hb as <-. exact Ha.
Defined.

Lemma plots_match_header_witness :
  exists wide w' calls,
    runs (process_file example_parse example_num_of_bool example_repr example_read
                       example_basename example_abspath true mock_origin
                       "C:/data/run1.xlsx" "C:/data/cv.otpu"
                       (Some update_progress)) world0 tt w' /\
    (forall coly colx, In (AddPlot coly colx) calls ->
       exists i,
         nth_error (hd [] (to_csv example_repr false wide)) colx
         = Some (spe_name i) /\
         nth_error (hd [] (to_csv example_repr false wide)) coly
         = Some (vol_name i)).
Proof.
  destruct (@plots_match_header Z example_parse example_num_of_bool example_repr
              example_read example_basename example_abspath true
              "C:/data/run1.xlsx" "C:/data/cv.otpu" example_sheet
              {| index := [0; 1]; columns := map (@tl _) (columns example_sheet) |}
              world0 eq_refl eq_refl)
    as (wide & w' & calls & _ & Hr & _ & _ & Hp).
  exists wide, w', calls. split; [exact Hr | exact Hp].
Defined.

(** ** The worker over the batch *)

Lemma runs_set_progress (v : Z) (w : World) :
  runs (set_progress v) w tt
       (mkWorld v (origin_log w) (disk w) (dialogs w) (threads w)).
Proof. reflexivity. Qed.

Lemma runs_show (d : dialog) (w : World) :
  runs (show d) w tt
       (mkWorld (progress_value w) (origin_log w) (disk w)
                (dialogs w ++ [d]) (threads w)).
Proof. reflexivity. Qed.

Lemma runs_try_except (c : M unit) (handler : exn -> M unit) w w1 :
  runs c w tt w1 -> runs (try_except c handler) w tt w1.
Proof. unfold runs, try_except. now intros ->. Qed.


Section WorkerFacts.

Variable num : Type.
Variable parse_text : string -> option num.
Variable num_of_bool : bool -> num.
Variable repr : num -> string.
Variable read_record_sheet : string -> result (DataFrame num).
Variable basename : string -> string.
Variable abspath : string -> string.
Variable oext : bool.

Local Abbreviation run_file :=
  (process_file parse_text num_of_bool repr read_record_sheet basename abspath oext
                mock_origin).
Local Abbreviation worker :=
  (_worker_batch parse_text num_of_bool repr read_record_sheet basename abspath oext
                 mock_origin).

(** The per-file loop of the worker on files that can all be read and
    cleaned. *)
Lemma worker_loop_runs (files : list string) (templ : string) (w : World) :
  (forall f, In f files ->
     exists parsed raw, read_record_sheet f = Ok parsed /\ clean parsed = Ok raw) ->
  exists w',
    runs (for_each files (fun f =>
            set_progress 0 ;; run_file f templ (Some update_progress))) w tt w' /\
    map fst (disk w') = (map fst (disk w) ++ map csv_path_of files)%list /\
    filter is_save (origin_log w')
    = (filter is_save (origin_log w)
       ++ map (fun f => Save (proj_path_of abspath f)) files)%list /\
    dialogs w' = dialogs w /\
    threads w' = threads w.
Proof.
  revert w. induction files as [|f files IH]; intros w Hall.
  - exists w. split; [apply runs_ret|]. cbn [map]. now rewrite !app_nil_r.
  - destruct (Hall f (or_introl eq_refl)) as (parsed & raw & Hread & Hclean).
    pose proof (process_file_runs parse_text num_of_bool repr
                  read_record_sheet basename
                  abspath oext f templ
                  (mkWorld 0 (origin_log w) (disk w) (dialogs w) (threads w))
                  Hread Hclean) as Hrun.
    cbn [progress_value origin_log disk dialogs threads] in Hrun.
    match type of Hrun with runs _ _ _ ?w1 =>
      destruct (IH w1) as (w' & Hr & Hd & Hs & Hdl & Ht)
    end; [intros g Hg; apply Hall; now right|].
    cbn [progress_value origin_log disk dialogs threads] in *.
    exists w'. split; [|split; [|split; [|split]]].
    + cbn [for_each]. eapply runs_bind; [|exact Hr].
      eapply runs_bind; [apply runs_set_progress | exact Hrun].
    + rewrite Hd, map_app. cbn [map fst]. now rewrite <- app_assoc.
    + rewrite Hs, filter_app, driver_save_calls. cbn [map].
      now rewrite <- app_assoc.
    + exact Hdl.
    + exact Ht.
Qed.

(** X14: on files that can all be read and cleaned, the worker returns after
    writing one CSV and saving one project per file, in the listed order,
    and ends with the summary dialog that counts the files; it shows
    nothing else and starts no thread. *)
Theorem worker_processes_all (files : list string) (templ : string)
        (w : World) :
  (forall f, In f files ->
     exists parsed raw, read_record_sheet f = Ok parsed /\ clean parsed = Ok raw) ->
  exists w',
    runs (worker files templ) w tt w' /\
    map fst (disk w') = (map fst (disk w) ++ map csv_path_of files)%list /\
    filter is_save (origin_log w')
    = (filter is_save (origin_log w)
       ++ map (fun f => Save (proj_path_of abspath f)) files)%list /\
    dialogs w'
    = (dialogs w
       ++ [ShowInfo "Done"
             ("Processed " ++ str (length files) ++ " files successfully.")])%list /\
    threads w' = threads w.
Proof.
  intros Hall.
  destruct (worker_loop_runs files templ w Hall)
    as (w1 & Hr & Hd & Hs & Hdl & Ht).
  eexists. split.
  - unfold _worker_batch. cbv zeta. apply runs_try_except.
    eapply runs_bind; [exact Hr | apply runs_show].
  - cbn [disk origin_log dialogs threads]. now rewrite Hdl.
Qed.


End WorkerFacts.

Lemma worker_processes_all_witness :
  exists w',
    runs (_worker_batch example_parse example_num_of_bool example_repr example_read
                        example_basename example_abspath true mock_origin
                        ["C:/data/run1.xlsx"] "C:/data/cv.otpu") world0 tt w' /\
    map fst (disk w') = ["C:/data/run1_plotdata.csv"] /\
    dialogs w' = [ShowInfo "Done" "Processed 1 files successfully."].
Proof.
  destruct (@worker_processes_all Z example_parse example_num_of_bool example_repr example_read
              example_basename example_abspath true
              ["C:/data/run1.xlsx"] "C:/data/cv.otpu" world0)
    as (w' & Hr & Hd & _ & Hdl & _).
  - intros f [<-|[]]. eexists. eexists. split; reflexivity.
  - exists w'. split; [exact Hr|]. split; [exact Hd | exact Hdl].
Defined.

